(** * cloud_file_manager: the upload pipeline of [file_uploader_cli.py]

    A shallow embedding of [FileUploader] (constructor, [upload_files],
    [upload_to_s3], [upload_to_gcs]) together with the parts of the Python
    standard library the pipeline goes through ([os.walk],
    [os.path.splitext], [os.path.join], [str.lower], the [in] operator on
    lists) and the statements of the specification proved or refuted on it.

    Modelling conventions.
    - A Python [str] is a [string]; a character outside ASCII is held as
      the bytes of its UTF-8 encoding.  [str.lower] is written out on the
      strings made of ASCII characters; on the others it follows the
      Unicode case tables, which are not in the repository and are taken
      as the parameter [unicode_lower].
    - Paths follow [posixpath]: the separator is [/], there is no
      alternative separator.
    - The file system and the two storage SDKs are the environment.  The
      file system is a function from the path given to [os.walk] to the
      tree found there; an SDK call either returns or raises, as decided by
      an oracle that sees the calls made so far.
    - The file system does not change while a run walks it.
    - Errors raised by the SDKs are instances of [Exception]
      (boto3 and google-cloud errors, [OSError] for a missing local file).
    - The logger is the list of the records handed to [logger.info] and
      [logger.error]. *)

From Stdlib Require Import String Ascii List ZArith Bool Lia Permutation.
Import ListNotations.
Open Scope string_scope.
Open Scope list_scope.
Open Scope Z_scope.

(** ** Python strings *)

Module Py.

(** [c in s] for a character [c]. *)
Fixpoint occurs (c : ascii) (s : string) : bool :=
  match s with
  | EmptyString => false
  | String a r => if Ascii.eqb a c then true else occurs c r
  end.

(** [s.rfind(c)]: the highest index of [c] in [s], [-1] when absent. *)
Fixpoint rfind (s : string) (c : ascii) : Z :=
  match s with
  | EmptyString => -1
  | String a r =>
      let k := rfind r c in
      if 0 <=? k then k + 1 else if Ascii.eqb a c then 0 else -1
  end.

(** [s[:k]] and [s[k:]] for an index [k] that is not negative (the only
    slices the modelled code takes). *)
Fixpoint take (n : nat) (s : string) : string :=
  match n, s with
  | S m, String a r => String a (take m r)
  | _, _ => EmptyString
  end.

Fixpoint drop (n : nat) (s : string) : string :=
  match n, s with
  | S m, String _ r => drop m r
  | _, _ => s
  end.

Definition slice_to (s : string) (k : Z) : string := take (Z.to_nat k) s.
Definition slice_from (s : string) (k : Z) : string := drop (Z.to_nat k) s.

(** [s[i:i+1]] *)
Definition slice1 (s : string) (i : Z) : string :=
  take 1 (drop (Z.to_nat i) s).

Definition startswith (s : string) (c : ascii) : bool :=
  match s with
  | String a _ => Ascii.eqb a c
  | EmptyString => false
  end.

Fixpoint endswith (s : string) (c : ascii) : bool :=
  match s with
  | EmptyString => false
  | String a EmptyString => Ascii.eqb a c
  | String _ r => endswith r c
  end.

Definition lower_char (c : ascii) : ascii :=
  let n := N_of_ascii c in
  if ((65 <=? n) && (n <=? 90))%N then ascii_of_N (n + 32) else c.

(** [s.lower()] for a string [s] of ASCII characters. *)
Fixpoint lower_ascii (s : string) : string :=
  match s with
  | EmptyString => EmptyString
  | String a r => String (lower_char a) (lower_ascii r)
  end.

(** [s.isascii()] *)
Fixpoint is_ascii (s : string) : bool :=
  match s with
  | EmptyString => true
  | String a r => (N_of_ascii a <? 128)%N && is_ascii r
  end.

(** [s.lower()].  On a string that holds a character outside ASCII the
    result is that of [unicode], which stands for [str.lower] there (it
    follows the Unicode case tables and is not character by character:
    the lower case of a capital sigma depends on its place in the word). *)
Definition lower (unicode : string -> string) (s : string) : string :=
  if is_ascii s then lower_ascii s else unicode s.

(** [x in l] for a list of strings. *)
Fixpoint contains (l : list string) (x : string) : bool :=
  match l with
  | [] => false
  | y :: r => if String.eqb x y then true else contains r x
  end.

End Py.

(** ** os.path and os.walk *)

Module os.
Module path.

Definition sep : ascii := "/"%char.
Definition extsep : ascii := "."%char.

(** The loop of [genericpath._splitext] that skips the leading dots of the
    last component: it runs while [filenameIndex < dotIndex], which is
    [n] more iterations, and answers whether it met a character that is
    not a dot. *)
Fixpoint splitext_scan (p : string) (n : nat) (filenameIndex : Z) : bool :=
  match n with
  | O => false
  | S m =>
      if negb (String.eqb (Py.slice1 p filenameIndex) (String extsep EmptyString))
      then true
      else splitext_scan p m (filenameIndex + 1)
  end.

(** [os.path.splitext(p)] *)
Definition splitext (p : string) : string * string :=
  let sepIndex := Py.rfind p sep in
  let dotIndex := Py.rfind p extsep in
  if sepIndex <? dotIndex then
    let filenameIndex := sepIndex + 1 in
    if splitext_scan p (Z.to_nat (dotIndex - filenameIndex)) filenameIndex
    then (Py.slice_to p dotIndex, Py.slice_from p dotIndex)
    else (p, Py.slice_to p 0)
  else (p, Py.slice_to p 0).

(** [os.path.join(a, b)] *)
Definition join (a b : string) : string :=
  if Py.startswith b sep then b
  else if (String.eqb a EmptyString || Py.endswith a sep)%bool then (a ++ b)%string
  else (a ++ String sep b)%string.

End path.


(** What [os.scandir] finds at a path: something that is not a directory
    (a regular file, a socket, a broken link), a directory whose listing
    succeeds or fails, or a symbolic link to a directory. *)
#[warnings="-register-all"]
Inductive node : Type :=
| File : node
| Dir : bool -> list (string * node) -> node
| DirLink : node.

Definition is_dir (n : node) : bool :=
  match n with
  | File => false
  | Dir _ _ | DirLink => true
  end.

Definition dirnames (entries : list (string * node)) : list string :=
  map fst (filter (fun e => is_dir (snd e)) entries).

Definition filenames (entries : list (string * node)) : list string :=
  map fst (filter (fun e => negb (is_dir (snd e))) entries).

(** [os.walk(top)] with its defaults ([topdown=True], [onerror=None],
    [followlinks=False]) on the tree found at [top]: an error of
    [os.scandir] is ignored and ends the walk of that directory, a link to
    a directory is listed among the directory names and not entered.
    The walk goes down every entry in listing order; the entries that are
    not readable directories contribute nothing.  [top] itself is given as
    [os.scandir] resolves it, so a root that is a link is its target. *)
Fixpoint walk_node (top : string) (n : node)
  : list (string * list string * list string) :=
  match n with
  | Dir true entries =>
      (top, dirnames entries, filenames entries)
      :: flat_map (fun e => walk_node (path.join top (fst e)) (snd e)) entries
  | _ => []
  end.

Definition filesystem : Type := string -> option node.

Definition walk (fs : filesystem) (top : string)
  : list (string * list string * list string) :=
  match fs top with
  | Some n => walk_node top n
  | None => []
  end.

End os.

(** ** The two storage SDKs, exceptions and the logger *)

(** The handle returned by [boto3.resource('s3', ...)]. *)
Record S3Resource : Type := boto3_resource {
  aws_access_key_id : string;
  aws_secret_access_key : string
}.

(** The handle returned by [storage.Client.from_service_account_json]. *)
Record GCSClient : Type := from_service_account_json {
  json_credentials_path : string
}.

(** The calls the uploader makes on the two handles. *)
Inductive sdk_call : Type :=
| S3_Bucket (s3 : S3Resource) (name : string)
| S3_upload_file (s3 : S3Resource) (bucket Filename Key : string)
| GCS_get_bucket (gcs : GCSClient) (bucket_name : string)
| GCS_blob (gcs : GCSClient) (bucket blob_name : string)
| GCS_upload_from_filename (gcs : GCSClient) (bucket blob_name filename : string).

(** An instance of [Exception]; [str(e)] is its message. *)
Inductive exn : Type :=
| Exception (message : string).

Definition str (e : exn) : string :=
  match e with Exception m => m end.

(** The environment's side of an SDK call: it returns ([None]) or raises,
    knowing the calls made before. *)
Definition sdk_oracle : Type := list sdk_call -> sdk_call -> option exn.

Inductive level : Type := INFO | ERROR.

Definition log_record : Type := (level * string)%type.

(** ** FileUploader *)

Record FileUploader : Type := mkFileUploader {
  s3_access_key : string;
  s3_secret_key : string;
  s3_bucket_name : string;
  gcs_project_id : string;
  gcs_bucket_name : string;
  s3_file_extensions : list string;
  gcs_file_extensions : list string;
  file_extensions : list string;
  s3 : S3Resource;
  gcs : GCSClient
}.

(** [FileUploader.__init__], with every keyword argument given. *)
Definition __init__
  (s3_access_key s3_secret_key s3_bucket_name : string)
  (gcs_credentials_path gcs_project_id gcs_bucket_name : string)
  (s3_file_extensions gcs_file_extensions : list string) : FileUploader :=
  {| s3_access_key := s3_access_key;
     s3_secret_key := s3_secret_key;
     s3_bucket_name := s3_bucket_name;
     gcs_project_id := gcs_project_id;
     gcs_bucket_name := gcs_bucket_name;
     s3_file_extensions := s3_file_extensions;
     gcs_file_extensions := gcs_file_extensions;
     file_extensions := s3_file_extensions ++ gcs_file_extensions;
     s3 := boto3_resource s3_access_key s3_secret_key;
     gcs := from_service_account_json gcs_credentials_path |}.

(** The state a run goes through: the uploader object [self] refers to,
    the SDK calls made so far (latest last) and the records logged so far
    (latest last). *)
Record state : Type := mkState {
  self : FileUploader;
  calls : list sdk_call;
  log : list log_record
}.

(** How a statement ends: normally, or by raising. *)
Inductive result (A : Type) : Type :=
| Return (a : A)
| Raise (e : exn).
Arguments Return {A} a.
Arguments Raise {A} e.

Definition M (A : Type) : Type := state -> result A * state.

Definition ret {A} (a : A) : M A := fun st => (Return a, st).

Definition bind {A B} (m : M A) (k : A -> M B) : M B :=
  fun st =>
    match m st with
    | (Return a, st') => k a st'
    | (Raise e, st') => (Raise e, st')
    end.

Notation "x <- m ;; k" := (bind m (fun x => k))
  (at level 61, m at next level, right associativity).
Notation "m ;; k" := (bind m (fun _ => k))
  (at level 61, right associativity).

(** [try: body except Exception as e: handler(e)] *)
Definition try_except {A} (body : M A) (handler : exn -> M A) : M A :=
  fun st =>
    match body st with
    | (Return a, st') => (Return a, st')
    | (Raise e, st') => handler e st'
    end.

(** [for x in l: body(x)] *)
Fixpoint for_each {A} (l : list A) (body : A -> M unit) : M unit :=
  match l with
  | [] => ret tt
  | x :: r => body x ;; for_each r body
  end.

Definition get_self : M FileUploader := fun st => (Return (self st), st).

Definition logger_info (msg : string) : M unit :=
  fun st => (Return tt, mkState (self st) (calls st) (log st ++ [(INFO, msg)])).

Definition logger_error (msg : string) : M unit :=
  fun st => (Return tt, mkState (self st) (calls st) (log st ++ [(ERROR, msg)])).

Section WithUnicodeTables.

(** [str.lower] on the strings that are not ASCII. *)
Variable unicode_lower : string -> string.

Section Run.

Variable fs : os.filesystem.
Variable sdk : sdk_oracle.

(** One call on an SDK handle. *)
Definition invoke (c : sdk_call) : M unit :=
  fun st =>
    let st' := mkState (self st) (calls st ++ [c]) (log st) in
    match sdk (calls st) c with
    | None => (Return tt, st')
    | Some e => (Raise e, st')
    end.

(** [FileUploader.upload_to_s3] *)
Definition upload_to_s3 (file_path file_name : string) : M unit :=
  this <- get_self ;;
  invoke (S3_Bucket (s3 this) (s3_bucket_name this)) ;;
  invoke (S3_upload_file (s3 this) (s3_bucket_name this) file_path file_name).

(** [FileUploader.upload_to_gcs] *)
Definition upload_to_gcs (file_path file_name : string) : M unit :=
  this <- get_self ;;
  invoke (GCS_get_bucket (gcs this) (gcs_bucket_name this)) ;;
  invoke (GCS_blob (gcs this) (gcs_bucket_name this) file_name) ;;
  invoke (GCS_upload_from_filename (gcs this) (gcs_bucket_name this)
            file_name file_path).

(** [os.path.splitext(file)[1][1:]] *)
Definition extension_of (file : string) : string :=
  Py.slice_from (snd (os.path.splitext file)) 1.

(** [os.path.splitext(file)[1][1:].lower()] *)
Definition file_extension_of (file : string) : string :=
  Py.lower unicode_lower (extension_of file).

(** The four messages of [upload_files]. *)
Definition s3_success_message (file bucket : string) : string :=
  ("Successfully uploaded " ++ file ++ " to AWS S3's " ++ bucket ++ " bucket.")%string.

Definition s3_error_message (file bucket : string) (e : exn) : string :=
  ("Error uploading " ++ file ++ " to AWS S3's " ++ bucket ++ " bucket: "
   ++ str e)%string.

Definition gcs_success_message (file bucket : string) : string :=
  ("Successfully uploaded " ++ file ++ " to Google Cloud Storage's " ++ bucket
   ++ " bucket.")%string.

Definition gcs_error_message (file bucket : string) (e : exn) : string :=
  ("Error uploading " ++ file ++ " to Google Cloud Storage's " ++ bucket
   ++ " bucket: " ++ str e)%string.

(** The body of the inner loop of [upload_files], for one [file] of
    [subdir]. *)
Definition upload_files_body (subdir file : string) : M unit :=
  let file_extension := file_extension_of file in
  this <- get_self ;;
  if Py.contains (file_extensions this) file_extension then
    let file_path := os.path.join subdir file in
    this <- get_self ;;
    if Py.contains (s3_file_extensions this) file_extension then
      try_except
        (upload_to_s3 file_path file ;;
         this <- get_self ;;
         logger_info (s3_success_message file (s3_bucket_name this)))
        (fun e =>
           this <- get_self ;;
           logger_error (s3_error_message file (s3_bucket_name this) e))
    else
      this <- get_self ;;
      if Py.contains (gcs_file_extensions this) file_extension then
        try_except
          (upload_to_gcs file_path file ;;
           this <- get_self ;;
           logger_info (gcs_success_message file (gcs_bucket_name this)))
          (fun e =>
             this <- get_self ;;
             logger_error (gcs_error_message file (s3_bucket_name this) e))
      else ret tt
  else ret tt.

(** [FileUploader.upload_files] *)
Definition upload_files (directory : string) : M unit :=
  for_each (os.walk fs directory)
    (fun '(subdir, dirs, files) =>
       for_each files (fun file => upload_files_body subdir file)).

End Run.

(** ** Notions used to state the properties *)

(** The two destinations. *)
Inductive backend : Type := AWS_S3 | Google_Cloud_Storage.

(** The branch of [upload_files] a file name takes: the first test is on
    the combined list, the second on the S3 list, the third on the GCS
    list. *)
Definition route (u : FileUploader) (file : string) : option backend :=
  let file_extension := file_extension_of file in
  if Py.contains (file_extensions u) file_extension then
    if Py.contains (s3_file_extensions u) file_extension then Some AWS_S3
    else if Py.contains (gcs_file_extensions u) file_extension
         then Some Google_Cloud_Storage
         else None
  else None.

Definition routed (u : FileUploader) (file : string) : bool :=
  match route u file with Some _ => true | None => false end.

(** The SDK calls of a complete upload, in order. *)
Definition s3_trace (u : FileUploader) (file_path file_name : string)
  : list sdk_call :=
  [ S3_Bucket (s3 u) (s3_bucket_name u);
    S3_upload_file (s3 u) (s3_bucket_name u) file_path file_name ].

Definition gcs_trace (u : FileUploader) (file_path file_name : string)
  : list sdk_call :=
  [ GCS_get_bucket (gcs u) (gcs_bucket_name u);
    GCS_blob (gcs u) (gcs_bucket_name u) file_name;
    GCS_upload_from_filename (gcs u) (gcs_bucket_name u) file_name file_path ].

Definition backend_trace (u : FileUploader) (b : backend)
  (file_path file_name : string) : list sdk_call :=
  match b with
  | AWS_S3 => s3_trace u file_path file_name
  | Google_Cloud_Storage => gcs_trace u file_path file_name
  end.

Definition is_gcs_call (c : sdk_call) : bool :=
  match c with
  | GCS_get_bucket _ _ | GCS_blob _ _ _ | GCS_upload_from_filename _ _ _ _ => true
  | S3_Bucket _ _ | S3_upload_file _ _ _ _ => false
  end.

(** The first exception the environment raises along a sequence of calls
    attempted in order after [history], and the calls that are attempted
    (up to and including the one that raises). *)
Fixpoint first_error (sdk : sdk_oracle) (history trace : list sdk_call)
  : option exn :=
  match trace with
  | [] => None
  | c :: r =>
      match sdk history c with
      | Some e => Some e
      | None => first_error sdk (history ++ [c]) r
      end
  end.

Fixpoint calls_made (sdk : sdk_oracle) (history trace : list sdk_call)
  : list sdk_call :=
  match trace with
  | [] => []
  | c :: r =>
      match sdk history c with
      | Some _ => [c]
      | None => c :: calls_made sdk (history ++ [c]) r
      end
  end.

Definition outcome_of (o : option exn) : result unit :=
  match o with
  | None => Return tt
  | Some e => Raise e
  end.

(** The record [upload_files] logs after an upload that returned, and
    after one that raised [e]. *)
Definition success_record (u : FileUploader) (b : backend) (file : string)
  : log_record :=
  match b with
  | AWS_S3 => (INFO, s3_success_message file (s3_bucket_name u))
  | Google_Cloud_Storage => (INFO, gcs_success_message file (gcs_bucket_name u))
  end.

Definition error_record (u : FileUploader) (b : backend) (file : string)
  (e : exn) : log_record :=
  match b with
  | AWS_S3 => (ERROR, s3_error_message file (s3_bucket_name u) e)
  | Google_Cloud_Storage => (ERROR, gcs_error_message file (s3_bucket_name u) e)
  end.

(** [r] is the outcome logged for [file] on backend [b]. *)
Definition is_outcome (u : FileUploader) (b : backend) (file : string)
  (r : log_record) : Prop :=
  r = success_record u b file \/ exists e, r = error_record u b file e.

(** [r] is the outcome of a file that is routed. *)
Definition outcome_for (u : FileUploader) (p : string * string)
  (r : log_record) : Prop :=
  exists b, route u (snd p) = Some b /\ is_outcome u b (snd p) r.

(** The method [upload_files] calls for a backend. *)
Definition backend_upload (sdk : sdk_oracle) (b : backend)
  (file_path file_name : string) : M unit :=
  match b with
  | AWS_S3 => upload_to_s3 sdk file_path file_name
  | Google_Cloud_Storage => upload_to_gcs sdk file_path file_name
  end.

(** The (directory, file name) pairs in the order [upload_files] meets
    them, and the loop over such pairs. *)
Definition walk_files (fs : os.filesystem) (directory : string)
  : list (string * string) :=
  flat_map (fun t => map (pair (fst (fst t))) (snd t)) (os.walk fs directory).

Definition run_files (sdk : sdk_oracle) (pairs : list (string * string))
  : M unit :=
  for_each pairs (fun p => upload_files_body sdk (fst p) (snd p)).

(** The extension as the specification words it: what follows the final
    dot, lower-cased, and nothing when the name has no dot. *)
Definition extension_after_final_dot (file : string) : string :=
  let dotIndex := Py.rfind file os.path.extsep in
  if dotIndex <? 0 then EmptyString
  else Py.lower unicode_lower (Py.slice_from file (dotIndex + 1)).

(** Every character of [s] is a dot. *)
Fixpoint all_dots (s : string) : bool :=
  match s with
  | EmptyString => true
  | String a r => Ascii.eqb a os.path.extsep && all_dots r
  end.

(** The root of a walk cannot be listed: it does not exist, it is not a
    directory, or [os.scandir] is refused. *)
Definition root_unlistable (fs : os.filesystem) (directory : string) : bool :=
  match fs directory with
  | None | Some os.File | Some (os.Dir false _) => true
  | Some (os.Dir true _) | Some os.DirLink => false
  end.

(** ** Concrete environments used by the examples and the witnesses *)

Definition no_such_directory : os.filesystem := fun _ => None.

Definition sdk_always_ok : sdk_oracle := fun _ _ => None.

(** Every transfer to S3 is refused. *)
Definition sdk_s3_down : sdk_oracle :=
  fun _ c =>
    match c with
    | S3_upload_file _ _ _ _ => Some (Exception "AccessDenied")
    | _ => None
    end.

(** Every transfer to Google Cloud Storage is refused. *)
Definition sdk_gcs_down : sdk_oracle :=
  fun _ c =>
    match c with
    | GCS_upload_from_filename _ _ _ _ => Some (Exception "Forbidden")
    | _ => None
    end.

Definition data_dir : os.filesystem :=
  fun top =>
    if String.eqb top "/data"
    then Some (os.Dir true
                 [("a.txt", os.File); ("b.jpg", os.File); ("c.pdf", os.File)])
    else None.

(** A tree with a subdirectory, a link to a directory and a directory
    that cannot be listed. *)
Definition nested_dir : os.filesystem :=
  fun top =>
    if String.eqb top "/top"
    then Some (os.Dir true
                 [ ("a.txt", os.File);
                   ("sub", os.Dir true [("b.jpg", os.File); ("notes", os.File)]);
                   ("link", os.DirLink);
                   ("locked", os.Dir false [("c.txt", os.File)]) ])
    else None.

Definition test_uploader : FileUploader :=
  __init__ "access_key" "secret_key" "s3-bucket"
    "credentials.json" "test_project" "gcs-bucket" ["txt"] ["jpg"].

Definition start (u : FileUploader) : state := mkState u [] [].

(** ** The command line entry point *)

(** [s.split(sep)] for a one-character separator: the pieces between the
    separators, [['']] for the empty string. *)
Fixpoint str_split (sep : ascii) (s : string) : list string :=
  match s with
  | EmptyString => [EmptyString]
  | String a r =>
      if Ascii.eqb a sep then EmptyString :: str_split sep r
      else match str_split sep r with
           | piece :: pieces => String a piece :: pieces
           | [] => [String a EmptyString]
           end
  end.

(** [sep.join(l)] *)
Fixpoint str_join (sep : ascii) (l : list string) : string :=
  match l with
  | [] => EmptyString
  | [x] => x
  | x :: r => (x ++ String sep (str_join sep r))%string
  end.

(** The number of occurrences of [c] in [s]. *)
Fixpoint count_char (c : ascii) (s : string) : nat :=
  match s with
  | EmptyString => O
  | String a r => if Ascii.eqb a c then S (count_char c r) else count_char c r
  end.

(** The configuration files as the process finds them:
    [config_parser.read(config)] raises (a parsing error) or leaves a
    parser whose [get(section, option)] gives the value or raises
    ([NoSectionError], [NoOptionError], an interpolation error).  A file
    that does not exist is read as an empty configuration, every [get] of
    which raises. *)
Definition config_parser : Type := string -> string -> result string.
Definition config_source : Type := string -> result config_parser.

(** The two client factories the constructor calls; each returns or
    raises. *)
Inductive factory_call : Type :=
| boto3_resource_s3 (aws_access_key_id aws_secret_access_key : string)
| Client_from_service_account_json (json_credentials_path : string).

Definition factory_oracle : Type := factory_call -> option exn.

Definition result_bind {A B} (r : result A) (k : A -> result B) : result B :=
  match r with
  | Return a => k a
  | Raise e => Raise e
  end.

Notation "x <~ r ;; k" := (result_bind r (fun x => k))
  (at level 61, r at next level, right associativity).

(** [FileUploader(...)] as a call: the attributes are set, then the S3
    resource and the Google Cloud Storage client are created, either of
    which may raise. *)
Definition new_FileUploader (factory : factory_oracle)
  (s3_access_key s3_secret_key s3_bucket_name : string)
  (gcs_credentials_path gcs_project_id gcs_bucket_name : string)
  (s3_file_extensions gcs_file_extensions : list string)
  : result FileUploader :=
  match factory (boto3_resource_s3 s3_access_key s3_secret_key) with
  | Some e => Raise e
  | None =>
      match factory (Client_from_service_account_json gcs_credentials_path) with
      | Some e => Raise e
      | None =>
          Return (__init__ s3_access_key s3_secret_key s3_bucket_name
                    gcs_credentials_path gcs_project_id gcs_bucket_name
                    s3_file_extensions gcs_file_extensions)
      end
  end.

(** The first part of [cli]: the configuration is read, the eight settings
    are fetched in the order of the source and the uploader is built. *)
Definition cli_uploader (source : config_source) (factory : factory_oracle)
  (config : string) : result FileUploader :=
  config_parser <~ source config ;;
  s3_access_key <~ config_parser "s3" "access_key" ;;
  s3_secret_key <~ config_parser "s3" "secret_key" ;;
  s3_bucket_name <~ config_parser "s3" "bucket_name" ;;
  gcs_credentials_path <~ config_parser "gcs" "credentials_path" ;;
  gcs_project_id <~ config_parser "gcs" "project_id" ;;
  gcs_bucket_name <~ config_parser "gcs" "bucket_name" ;;
  s3_extensions <~ config_parser "s3" "extensions" ;;
  let s3_file_extensions := str_split "," s3_extensions in
  gcs_extensions <~ config_parser "gcs" "extensions" ;;
  let gcs_file_extensions := str_split "," gcs_extensions in
  new_FileUploader factory s3_access_key s3_secret_key s3_bucket_name
    gcs_credentials_path gcs_project_id gcs_bucket_name
    s3_file_extensions gcs_file_extensions.

(** The function under the decorator, [cli.callback(config, directory)]:
    how it ends, the SDK calls made and the records logged. *)
Definition cli_callback (source : config_source) (factory : factory_oracle)
  (fs : os.filesystem) (sdk : sdk_oracle) (config directory : string)
  : result unit * list sdk_call * list log_record :=
  match cli_uploader source factory config with
  | Raise e => (Raise e, [], [])
  | Return uploader =>
      let (r, st) := upload_files fs sdk directory (mkState uploader [] []) in
      (r, calls st, log st)
  end.

(** How a command ends when it is called as the console script and the
    [__main__] block call it: by [SystemExit(code)], or by an exception
    that click lets through. *)
Inductive command_end : Type :=
| SystemExit (code : Z)
| Propagated (e : exn).

(** [cli], the command that [@click.command()] makes of the function,
    called with [config] and [directory] as the values of its two options.
    Click runs the function and, once it has returned, leaves by
    [SystemExit(0)]; what the function raises comes out as it is.  (Click
    turns into an exit status only its own exceptions, [EOFError],
    [KeyboardInterrupt] and a broken pipe, none of which the configuration
    parser, the client factories or [upload_files] raise.) *)
Definition cli (source : config_source) (factory : factory_oracle)
  (fs : os.filesystem) (sdk : sdk_oracle) (config directory : string)
  : command_end * list sdk_call * list log_record :=
  match cli_callback source factory fs sdk config directory with
  | (Return _, cs, records) => (SystemExit 0, cs, records)
  | (Raise e, cs, records) => (Propagated e, cs, records)
  end.

(** ** Further notions *)

(** The call is made on the uploader's own handle and names the bucket
    configured for that backend. *)
Definition on_configured (u : FileUploader) (c : sdk_call) : Prop :=
  match c with
  | S3_Bucket h b | S3_upload_file h b _ _ =>
      h = s3 u /\ b = s3_bucket_name u
  | GCS_get_bucket g b | GCS_blob g b _ | GCS_upload_from_filename g b _ _ =>
      g = gcs u /\ b = gcs_bucket_name u
  end.

(** The call, when it names a remote object, names it after a routed file
    among [pairs] and reads the local file at the joined path. *)
Definition names_a_file (u : FileUploader) (pairs : list (string * string))
  (c : sdk_call) : Prop :=
  match c with
  | S3_upload_file _ _ Filename Key =>
      exists subdir, In (subdir, Key) pairs
                     /\ route u Key = Some AWS_S3
                     /\ Filename = os.path.join subdir Key
  | GCS_blob _ _ blob_name =>
      exists subdir, In (subdir, blob_name) pairs
                     /\ route u blob_name = Some Google_Cloud_Storage
  | GCS_upload_from_filename _ _ blob_name filename =>
      exists subdir, In (subdir, blob_name) pairs
                     /\ route u blob_name = Some Google_Cloud_Storage
                     /\ filename = os.path.join subdir blob_name
  | S3_Bucket _ _ | GCS_get_bucket _ _ => True
  end.

(** The call moves bytes or names a blob on Google Cloud Storage. *)
Definition is_gcs_transfer (c : sdk_call) : bool :=
  match c with
  | GCS_blob _ _ _ | GCS_upload_from_filename _ _ _ _ => true
  | _ => false
  end.

Definition is_s3_call (c : sdk_call) : bool := negb (is_gcs_call c).

(** The calls and the records of a run in which no SDK call raises. *)
Definition planned_calls (u : FileUploader) (pairs : list (string * string))
  : list sdk_call :=
  flat_map (fun p =>
              match route u (snd p) with
              | Some b => backend_trace u b (os.path.join (fst p) (snd p)) (snd p)
              | None => []
              end) pairs.

Definition planned_log (u : FileUploader) (pairs : list (string * string))
  : list log_record :=
  flat_map (fun p =>
              match route u (snd p) with
              | Some b => [success_record u b (snd p)]
              | None => []
              end) pairs.

(** A configured extension that holds a dot, a separator or one of the
    upper-case letters [A] to [Z]. *)
Definition never_matches (s : string) : bool :=
  Py.occurs os.path.extsep s || Py.occurs os.path.sep s
  || negb (String.eqb (Py.lower_ascii s) s).

(** [s.startswith(p)] for a string [p]. *)
Fixpoint has_prefix (p s : string) : bool :=
  match p, s with
  | EmptyString, _ => true
  | String a p', String b s' => Ascii.eqb a b && has_prefix p' s'
  | String _ _, EmptyString => false
  end.

(** No entry of the tree has a name that starts with the separator (an
    entry name holds no separator at all). *)
Fixpoint names_relative (n : os.node) : bool :=
  match n with
  | os.Dir _ entries =>
      forallb (fun e => negb (Py.startswith (fst e) os.path.sep)
                        && names_relative (snd e)) entries
  | _ => true
  end.

(** The settings [cli] fetches, in the order of the source. *)
Definition required_settings : list (string * string) :=
  [ ("s3", "access_key"); ("s3", "secret_key"); ("s3", "bucket_name");
    ("gcs", "credentials_path"); ("gcs", "project_id"); ("gcs", "bucket_name");
    ("s3", "extensions"); ("gcs", "extensions") ].

(** The call, when it reads a local file, reads it at a path that starts
    with [root]. *)
Definition reads_under (root : string) (c : sdk_call) : Prop :=
  match c with
  | S3_upload_file _ _ local _ | GCS_upload_from_filename _ _ _ local =>
      has_prefix root local = true
  | _ => True
  end.

(** [reaches top n subdir file]: below the tree [n] found at [top], going
    down readable directories only (a link to a directory is not one),
    there is the directory [subdir], and it lists [file] as something that
    is not a directory. *)
Inductive reaches : string -> os.node -> string -> string -> Prop :=
| reaches_here (top : string) (entries : list (string * os.node))
    (file : string) (n : os.node) :
    In (file, n) entries -> os.is_dir n = false ->
    reaches top (os.Dir true entries) top file
| reaches_below (top : string) (entries : list (string * os.node))
    (name : string) (child : os.node) (subdir file : string) :
    In (name, child) entries ->
    reaches (os.path.join top name) child subdir file ->
    reaches top (os.Dir true entries) subdir file.

(** The uploader with another project id. *)
Definition with_project_id (u : FileUploader) (project_id : string)
  : FileUploader :=
  mkFileUploader (s3_access_key u) (s3_secret_key u) (s3_bucket_name u)
    project_id (gcs_bucket_name u) (s3_file_extensions u)
    (gcs_file_extensions u) (file_extensions u) (s3 u) (gcs u).

(** A configuration file with the settings of the test fixture and two
    buckets; [extensions] of S3 is left empty in the second one. *)
Definition sample_parser (s3_extensions : string) : config_parser :=
  fun section option =>
    match section, option with
    | "s3", "access_key" => Return "access_key"
    | "s3", "secret_key" => Return "secret_key"
    | "s3", "bucket_name" => Return "s3-bucket"
    | "s3", "extensions" => Return s3_extensions
    | "gcs", "credentials_path" => Return "credentials.json"
    | "gcs", "project_id" => Return "test_project"
    | "gcs", "bucket_name" => Return "gcs-bucket"
    | "gcs", "extensions" => Return "jpg"
    | _, _ => Raise (Exception "NoOptionError")
    end.

Definition sample_source : config_source :=
  fun config =>
    if String.eqb config "config.ini" then Return (sample_parser "txt")
    else if String.eqb config "empty.ini" then Return (sample_parser "")
    else Return (fun _ _ => Raise (Exception "NoSectionError")).

Definition factory_ok : factory_oracle := fun _ => None.

(** Stands for the Unicode tables where every string is ASCII: [Py.lower]
    does not consult them there. *)
Definition no_unicode : string -> string := fun s => s.

(** Two directories that each hold a file [a.txt]. *)
Definition twin_dirs : os.filesystem :=
  fun top =>
    if String.eqb top "/top"
    then Some (os.Dir true
                 [ ("x", os.Dir true [("a.txt", os.File)]);
                   ("y", os.Dir true [("a.txt", os.File)]) ])
    else None.

(** The bucket lookup on Google Cloud Storage is refused. *)
Definition sdk_no_gcs_bucket : sdk_oracle :=
  fun _ c =>
    match c with
    | GCS_get_bucket _ _ => Some (Exception "NotFound")
    | _ => None
    end.

(** ** Evaluations *)

Example splitext_txt : os.path.splitext "a.TXT" = ("a", ".TXT").
Proof. reflexivity. Qed.
Example splitext_hidden : os.path.splitext ".bashrc" = (".bashrc", "").
Proof. reflexivity. Qed.
Example splitext_tar : os.path.splitext "x.tar.gz" = ("x.tar", ".gz").
Proof. reflexivity. Qed.
Example splitext_dir : os.path.splitext "a.b/c" = ("a.b/c", "").
Proof. reflexivity. Qed.
Example splitext_trail : os.path.splitext "abc." = ("abc", ".").
Proof. reflexivity. Qed.
Example splitext_dots : os.path.splitext "..txt" = ("..txt", "").
Proof. reflexivity. Qed.
Example join_plain : os.path.join "/data/sub" "a.txt" = "/data/sub/a.txt".
Proof. reflexivity. Qed.
Example join_slash : os.path.join "/data/" "a.txt" = "/data/a.txt".
Proof. reflexivity. Qed.
Example lower_mixed : Py.lower unicode_lower "JpG1" = "jpg1".
Proof. reflexivity. Qed.
(** A capital E with an acute accent (its two UTF-8 bytes) is left to the
    Unicode tables. *)
Example lower_beyond_ascii :
  let e_acute := String "195" (String "137" EmptyString) in
  Py.is_ascii e_acute = false
  /\ Py.lower unicode_lower ("a." ++ e_acute)%string
     = unicode_lower ("a." ++ e_acute)%string.
Proof. split; reflexivity. Qed.
Example walk_nested :
  os.walk nested_dir "/top"
  = [ ("/top", ["sub"; "link"; "locked"], ["a.txt"]);
      ("/top/sub", [], ["b.jpg"; "notes"]) ].
Proof. reflexivity. Qed.

(** The run of [test_upload_files]: one S3 upload for the [txt] file, one
    Google Cloud Storage upload for the [jpg] file, nothing for the
    [pdf] file. *)
Example test_upload_files :
  upload_files data_dir sdk_always_ok "/data" (start test_uploader)
  = (Return tt,
     mkState test_uploader
       [ S3_Bucket (s3 test_uploader) "s3-bucket";
         S3_upload_file (s3 test_uploader) "s3-bucket" "/data/a.txt" "a.txt";
         GCS_get_bucket (gcs test_uploader) "gcs-bucket";
         GCS_blob (gcs test_uploader) "gcs-bucket" "b.jpg";
         GCS_upload_from_filename (gcs test_uploader) "gcs-bucket"
           "b.jpg" "/data/b.jpg" ]
       [ (INFO, "Successfully uploaded a.txt to AWS S3's s3-bucket bucket.");
         (INFO, "Successfully uploaded b.jpg to Google Cloud Storage's gcs-bucket bucket.") ]).
Proof. reflexivity. Qed.

(** ** Lists of strings *)

Lemma contains_In (l : list string) (x : string) :
  Py.contains l x = true <-> In x l.
Proof.
  induction l as [|y l IH]; simpl.
  - split; [discriminate | intros []].
  - destruct (String.eqb_spec x y) as [->|Hne].
    + split; [intros _; left; reflexivity | reflexivity].
    + rewrite IH. split; [intros H; right; exact H|].
      intros [Heq|Hin]; [symmetry in Heq; contradiction | exact Hin].
Qed.

Lemma contains_not_In (l : list string) (x : string) :
  Py.contains l x = false <-> ~ In x l.
Proof.
  rewrite <- contains_In.
  destruct (Py.contains l x); split; intros H;
    [discriminate H | exfalso; apply H; reflexivity | intros H'; discriminate H'
    | reflexivity].
Qed.

Lemma contains_app (l1 l2 : list string) (x : string) :
  Py.contains (l1 ++ l2) x = Py.contains l1 x || Py.contains l2 x.
Proof.
  induction l1 as [|y l1 IH]; simpl; [reflexivity|].
  destruct (String.eqb x y); [reflexivity | exact IH].
Qed.

(** ** The monad and the SDK calls *)

Lemma state_eta (st : state) : mkState (self st) (calls st) (log st) = st.
Proof. destruct st; reflexivity. Qed.

Lemma for_each_app {A} (l1 l2 : list A) (body : A -> M unit) (st : state) :
  for_each (l1 ++ l2) body st = (for_each l1 body ;; for_each l2 body) st.
Proof.
  revert st. induction l1 as [|x l1 IH]; intros st; simpl.
  - reflexivity.
  - unfold bind. destruct (body x st) as [[[]|e] st1]; [|reflexivity].
    rewrite IH. reflexivity.
Qed.

Section RunFacts.

Variable sdk : sdk_oracle.

Lemma for_each_invoke (trace : list sdk_call) (st : state) :
  for_each trace (invoke sdk) st
  = (outcome_of (first_error sdk (calls st) trace),
     mkState (self st) (calls st ++ calls_made sdk (calls st) trace) (log st)).
Proof.
  revert st. induction trace as [|c r IH]; intros st; simpl.
  - unfold ret. rewrite app_nil_r, state_eta. reflexivity.
  - unfold bind, invoke at 1. destruct (sdk (calls st) c) as [e|]; simpl.
    + reflexivity.
    + rewrite IH. simpl. rewrite <- app_assoc. reflexivity.
Qed.

Lemma backend_upload_spec (b : backend) (file_path file_name : string)
  (st : state) :
  backend_upload sdk b file_path file_name st
  = (outcome_of
       (first_error sdk (calls st) (backend_trace (self st) b file_path file_name)),
     mkState (self st)
       (calls st
        ++ calls_made sdk (calls st)
             (backend_trace (self st) b file_path file_name))
       (log st)).
Proof.
  rewrite <- for_each_invoke.
  destruct b; simpl; unfold upload_to_s3, upload_to_gcs, bind, get_self, ret;
    repeat (match goal with
            | |- context [invoke sdk ?c ?s] =>
                destruct (invoke sdk c s) as [[[]|?] ?]
            end; try reflexivity).
Qed.

(** What one turn of the inner loop does, by the branch taken. *)
Lemma upload_files_body_spec (subdir file : string) (st : state) :
  upload_files_body sdk subdir file st
  = match route (self st) file with
    | None => (Return tt, st)
    | Some b =>
        let tr := backend_trace (self st) b (os.path.join subdir file) file in
        (Return tt,
         mkState (self st)
           (calls st ++ calls_made sdk (calls st) tr)
           (log st
            ++ [match first_error sdk (calls st) tr with
                | None => success_record (self st) b file
                | Some e => error_record (self st) b file e
                end]))
    end.
Proof.
  unfold upload_files_body, route.
  unfold bind at 1. unfold get_self at 1. cbv beta iota.
  destruct (Py.contains (file_extensions (self st)) (file_extension_of file));
    [|reflexivity].
  unfold bind at 1. unfold get_self at 1. cbv beta iota.
  destruct (Py.contains (s3_file_extensions (self st)) (file_extension_of file)).
  - unfold try_except, bind at 1.
    change (upload_to_s3 sdk ?p ?n) with (backend_upload sdk AWS_S3 p n).
    rewrite backend_upload_spec. cbv zeta.
    destruct (first_error sdk (calls st) _); reflexivity.
  - unfold bind at 1. unfold get_self at 1. cbv beta iota.
    destruct (Py.contains (gcs_file_extensions (self st)) (file_extension_of file));
      [|reflexivity].
    unfold try_except, bind at 1.
    change (upload_to_gcs sdk ?p ?n)
      with (backend_upload sdk Google_Cloud_Storage p n).
    rewrite backend_upload_spec. cbv zeta.
    destruct (first_error sdk (calls st) _); reflexivity.
Qed.

End RunFacts.

(** ** The whole run *)

Lemma for_each_map {A B} (g : A -> B) (l : list A) (body : B -> M unit)
  (st : state) :
  for_each (map g l) body st = for_each l (fun x => body (g x)) st.
Proof.
  revert st. induction l as [|x l IH]; intros st; simpl; [reflexivity|].
  unfold bind. destruct (body (g x) st) as [[[]|e] st1]; [apply IH | reflexivity].
Qed.

(** The nested loops of [upload_files] are one loop over the files of the
    walk. *)
Lemma upload_files_flat (fs : os.filesystem) (sdk : sdk_oracle)
  (directory : string) (st : state) :
  upload_files fs sdk directory st
  = run_files sdk (walk_files fs directory) st.
Proof.
  unfold upload_files, walk_files, run_files.
  generalize (os.walk fs directory) as triples. intros triples. revert st.
  induction triples as [|[[subdir dirs] files] r IH]; intros st; simpl.
  - reflexivity.
  - rewrite for_each_app. unfold bind. rewrite for_each_map. simpl.
    destruct (for_each files _ st) as [[[]|e] st1]; [apply IH | reflexivity].
Qed.

Lemma run_files_app (sdk : sdk_oracle) (l1 l2 : list (string * string))
  (st : state) :
  run_files sdk (l1 ++ l2) st = (run_files sdk l1 ;; run_files sdk l2) st.
Proof. apply for_each_app. Qed.

Lemma run_files_cons (sdk : sdk_oracle) (p : string * string)
  (r : list (string * string)) (st : state) :
  run_files sdk (p :: r) st
  = (upload_files_body sdk (fst p) (snd p) ;; run_files sdk r) st.
Proof. reflexivity. Qed.

(** A run over any files returns, leaves the uploader as it was, only
    adds calls and records, and logs one outcome for each routed file, in
    the order of the files. *)
Lemma run_files_spec (sdk : sdk_oracle) (pairs : list (string * string))
  (st : state) :
  exists cs outs,
    run_files sdk pairs st
    = (Return tt, mkState (self st) (calls st ++ cs) (log st ++ outs))
    /\ Forall2 (outcome_for (self st))
         (filter (fun p => routed (self st) (snd p)) pairs) outs.
Proof.
  revert st. induction pairs as [|[d f] r IH]; intros st.
  - exists [], []. simpl. unfold ret. rewrite !app_nil_r, state_eta.
    split; [reflexivity | constructor].
  - unfold run_files. simpl. unfold bind. rewrite upload_files_body_spec.
    unfold routed. destruct (route (self st) f) as [b|] eqn:Hroute.
    + cbv zeta.
      match goal with
      | |- context [for_each r _ ?s] => destruct (IH s) as (cs & outs & Hrun & Hout)
      end.
      unfold run_files in Hrun. simpl in Hrun, Hout.
      eexists. eexists. split.
      * rewrite Hrun. rewrite <- !app_assoc. reflexivity.
      * simpl. constructor; [|exact Hout].
        exists b. split; [exact Hroute|]. unfold is_outcome.
        destruct (first_error sdk (calls st) _) as [e|]; [right; exists e|left];
          reflexivity.
    + destruct (IH st) as (cs & outs & Hrun & Hout).
      exists cs, outs. split; [exact Hrun | exact Hout].
Qed.

Lemma run_files_returns (sdk : sdk_oracle) (pairs : list (string * string))
  (st : state) :
  fst (run_files sdk pairs st) = Return tt.
Proof.
  destruct (run_files_spec sdk pairs st) as (cs & outs & Hrun & _).
  rewrite Hrun. reflexivity.
Qed.

Lemma run_files_self (sdk : sdk_oracle) (pairs : list (string * string))
  (st : state) :
  self (snd (run_files sdk pairs st)) = self st.
Proof.
  destruct (run_files_spec sdk pairs st) as (cs & outs & Hrun & _).
  rewrite Hrun. reflexivity.
Qed.

(** ** Failure isolation (C1) *)

(** C1. When the upload of a routed file raises [e] at its turn in the
    walk, [upload_files] still returns normally; the log then holds, after
    what was logged before that file, the error record of that file with
    [str e] in it, followed by exactly one outcome for each routed file
    that comes later in the walk. *)
Theorem upload_failure_is_isolated
  (fs : os.filesystem) (sdk : sdk_oracle) (directory : string) (st0 : state)
  (before after : list (string * string)) (subdir file : string)
  (b : backend) (e : exn) :
  walk_files fs directory = before ++ (subdir, file) :: after ->
  route (self st0) file = Some b ->
  fst (backend_upload sdk b (os.path.join subdir file) file
         (snd (run_files sdk before st0))) = Raise e ->
  exists outs,
    fst (upload_files fs sdk directory st0) = Return tt
    /\ log (snd (upload_files fs sdk directory st0))
       = log (snd (run_files sdk before st0))
         ++ error_record (self st0) b file e :: outs
    /\ Forall2 (outcome_for (self st0))
         (filter (fun p => routed (self st0) (snd p)) after) outs.
Proof.
  intros Hwalk Hroute Hfail.
  rewrite upload_files_flat, Hwalk.
  rewrite run_files_app. unfold bind.
  pose proof (run_files_self sdk before st0) as Hself.
  pose proof (run_files_returns sdk before st0) as Hret.
  destruct (run_files sdk before st0) as [r1 st1]. simpl in *. subst r1.
  rewrite run_files_cons. unfold bind. simpl fst. simpl snd.
  rewrite upload_files_body_spec, Hself, Hroute. cbv zeta.
  rewrite backend_upload_spec, Hself in Hfail. simpl in Hfail.
  destruct (first_error sdk (calls st1) _) as [e'|]; [|discriminate].
  injection Hfail as ->. unfold ret.
  match goal with
  | |- context [run_files sdk after ?s] =>
      destruct (run_files_spec sdk after s) as (cs & outs & Hrun & Hout)
  end.
  simpl in Hrun, Hout. rewrite Hrun. simpl.
  exists outs. split; [reflexivity|]. split; [|exact Hout].
  rewrite <- app_assoc. reflexivity.
Qed.

(** ** A root that cannot be listed (C2) *)

(** C2, amended. When the root cannot be listed (it does not exist, is
    not a directory, or its listing is refused), [upload_files] returns
    normally without having made any SDK call or logged any record: the
    state is the one it started from. *)
Theorem unlistable_root_is_an_empty_run
  (fs : os.filesystem) (sdk : sdk_oracle) (directory : string) (st : state) :
  root_unlistable fs directory = true ->
  upload_files fs sdk directory st = (Return tt, st).
Proof.
  unfold root_unlistable, upload_files, os.walk. intros Hroot.
  destruct (fs directory) as [[|[|] entries|]|]; try discriminate; reflexivity.
Qed.

(** ** The uploader is left as it was (C10) *)

(** C10. After [upload_files] the uploader object is the one the run
    started with, field by field, whatever the SDK calls did. *)
Theorem upload_files_preserves_configuration
  (fs : os.filesystem) (sdk : sdk_oracle) (directory : string) (st : state) :
  let u := self st in
  let u' := self (snd (upload_files fs sdk directory st)) in
  s3_access_key u' = s3_access_key u
  /\ s3_secret_key u' = s3_secret_key u
  /\ s3_bucket_name u' = s3_bucket_name u
  /\ gcs_project_id u' = gcs_project_id u
  /\ gcs_bucket_name u' = gcs_bucket_name u
  /\ s3_file_extensions u' = s3_file_extensions u
  /\ gcs_file_extensions u' = gcs_file_extensions u
  /\ file_extensions u' = file_extensions u
  /\ s3 u' = s3 u
  /\ gcs u' = gcs u.
Proof.
  cbv zeta. rewrite upload_files_flat, run_files_self. repeat split.
Qed.

(** ** The upload methods do not catch (C7) *)

(** C7. [upload_to_s3] and [upload_to_gcs] end exactly as their SDK calls
    do: they raise the first exception an SDK call raises, that very
    exception, and return when no call raises. *)
Theorem upload_methods_propagate_errors
  (sdk : sdk_oracle) (file_path file_name : string) (st : state) :
  fst (upload_to_s3 sdk file_path file_name st)
  = outcome_of (first_error sdk (calls st)
                  (s3_trace (self st) file_path file_name))
  /\ fst (upload_to_gcs sdk file_path file_name st)
     = outcome_of (first_error sdk (calls st)
                     (gcs_trace (self st) file_path file_name)).
Proof.
  split.
  - change (upload_to_s3 sdk file_path file_name)
      with (backend_upload sdk AWS_S3 file_path file_name).
    rewrite backend_upload_spec. reflexivity.
  - change (upload_to_gcs sdk file_path file_name)
      with (backend_upload sdk Google_Cloud_Storage file_path file_name).
    rewrite backend_upload_spec. reflexivity.
Qed.

(** ** What is uploaded, and under which name (C9, C3) *)

(** C9. When the walk yields [file] in [subdir] and the file is routed,
    the calls made at its turn are those of the backend's upload method
    called with the joined path and the bare file name; written out, for
    S3 the transfer is [upload_file(join(subdir, file), file)] on the
    configured bucket (the object key is the file name), for Google Cloud
    Storage the blob is named [file] in the configured bucket and is fed
    from the joined path.  The calls stop at the first one that raises. *)
Theorem routed_file_is_uploaded_under_its_name
  (fs : os.filesystem) (sdk : sdk_oracle) (directory : string) (st0 : state)
  (before after : list (string * string)) (subdir file : string) (b : backend) :
  walk_files fs directory = before ++ (subdir, file) :: after ->
  route (self st0) file = Some b ->
  let u := self st0 in
  let st1 := snd (run_files sdk before st0) in
  let file_path := os.path.join subdir file in
  exists later,
    calls (snd (upload_files fs sdk directory st0))
    = calls (snd (backend_upload sdk b file_path file st1)) ++ later
    /\ calls (snd (backend_upload sdk b file_path file st1))
       = calls st1
         ++ calls_made sdk (calls st1)
              match b with
              | AWS_S3 =>
                  [ S3_Bucket (s3 u) (s3_bucket_name u);
                    S3_upload_file (s3 u) (s3_bucket_name u) file_path file ]
              | Google_Cloud_Storage =>
                  [ GCS_get_bucket (gcs u) (gcs_bucket_name u);
                    GCS_blob (gcs u) (gcs_bucket_name u) file;
                    GCS_upload_from_filename (gcs u) (gcs_bucket_name u)
                      file file_path ]
              end.
Proof.
  intros Hwalk Hroute u st1 file_path.
  rewrite upload_files_flat, Hwalk, run_files_app. unfold bind.
  pose proof (run_files_self sdk before st0) as Hself.
  pose proof (run_files_returns sdk before st0) as Hret.
  subst st1. destruct (run_files sdk before st0) as [r1 st1].
  simpl in Hself, Hret. subst r1. simpl snd.
  rewrite run_files_cons. unfold bind. simpl fst. simpl snd.
  rewrite upload_files_body_spec, Hself, Hroute. cbv zeta.
  rewrite backend_upload_spec, Hself. simpl snd.
  match goal with
  | |- context [run_files sdk after ?s] =>
      destruct (run_files_spec sdk after s) as (cs & outs & Hrun & _)
  end.
  rewrite Hrun. simpl. exists cs. split; [reflexivity|].
  destruct b; reflexivity.
Qed.

Lemma calls_made_not_nil (sdk : sdk_oracle) (history : list sdk_call)
  (c : sdk_call) (r : list sdk_call) :
  exists rest, calls_made sdk history (c :: r) = c :: rest.
Proof.
  simpl. destruct (sdk history c); eexists; reflexivity.
Qed.

Lemma calls_made_Forall (sdk : sdk_oracle) (P : sdk_call -> Prop)
  (trace history : list sdk_call) :
  Forall P trace -> Forall P (calls_made sdk history trace).
Proof.
  revert history. induction trace as [|c r IH]; intros history Hall; simpl.
  - constructor.
  - inversion Hall; subst.
    destruct (sdk history c); constructor; auto.
Qed.

(** C3. With an uploader built by the constructor, a file whose extension
    is in both lists takes the S3 branch: at its turn the S3 upload is
    attempted with the joined path and the file name, and none of the calls
    made is a call on the Google Cloud Storage client. *)
Theorem overlapping_extension_goes_to_s3
  (access_key secret_key bucket credentials_path project_id gcs_bucket : string)
  (s3_extensions gcs_extensions : list string)
  (sdk : sdk_oracle) (subdir file : string)
  (calls0 : list sdk_call) (log0 : list log_record) :
  In (file_extension_of file) s3_extensions ->
  In (file_extension_of file) gcs_extensions ->
  let u := __init__ access_key secret_key bucket credentials_path project_id
             gcs_bucket s3_extensions gcs_extensions in
  let st := mkState u calls0 log0 in
  let st' := snd (upload_files_body sdk subdir file st) in
  route u file = Some AWS_S3
  /\ calls st' = calls (snd (upload_to_s3 sdk (os.path.join subdir file) file st))
  /\ exists rest,
       calls st' = calls0 ++ S3_Bucket (s3 u) bucket :: rest
       /\ Forall (fun c => is_gcs_call c = false) rest.
Proof.
  intros Hs3 Hgcs u st st'.
  assert (Hroute : route u file = Some AWS_S3).
  { unfold route. subst u. simpl. rewrite contains_app.
    apply contains_In in Hs3. rewrite Hs3. reflexivity. }
  split; [exact Hroute|].
  subst st'. rewrite upload_files_body_spec.
  change (self st) with u. rewrite Hroute. cbv zeta.
  change (upload_to_s3 sdk ?p ?n) with (backend_upload sdk AWS_S3 p n).
  rewrite backend_upload_spec.
  change (self st) with u. change (calls st) with calls0. cbn [snd calls].
  split; [reflexivity|].
  pose proof (calls_made_Forall sdk (fun c => is_gcs_call c = false)
                (backend_trace u AWS_S3 (os.path.join subdir file) file) calls0)
    as Hall.
  destruct (calls_made_not_nil sdk calls0 (S3_Bucket (s3 u) (s3_bucket_name u))
              [S3_upload_file (s3 u) (s3_bucket_name u)
                 (os.path.join subdir file) file]) as [rest Hrest].
  change (backend_trace u AWS_S3 (os.path.join subdir file) file)
    with [S3_Bucket (s3 u) (s3_bucket_name u);
          S3_upload_file (s3 u) (s3_bucket_name u) (os.path.join subdir file) file]
    in *.
  rewrite Hrest in *. exists rest. split; [reflexivity|].
  assert (Hall' : Forall (fun c => is_gcs_call c = false)
                    (S3_Bucket (s3 u) (s3_bucket_name u) :: rest)).
  { apply Hall. repeat constructor. }
  inversion Hall'; assumption.
Qed.

(** ** A directory of three files (C5) *)

Lemma Permutation_filter_compat {A} (f : A -> bool) (l l' : list A) :
  Permutation l l' -> Permutation (filter f l) (filter f l').
Proof.
  induction 1 as [|x l l' _ IH|x y l|l l' l'' _ IH1 _ IH2]; simpl.
  - constructor.
  - destruct (f x); [constructor|]; exact IH.
  - destruct (f x), (f y); try apply Permutation_refl.
    apply perm_swap.
  - eapply Permutation_trans; eassumption.
Qed.

Lemma walk_node_files_only (top : string) (entries : list (string * os.node)) :
  Forall (fun e => snd e = os.File) entries ->
  flat_map (fun e => os.walk_node (os.path.join top (fst e)) (snd e)) entries = []
  /\ os.filenames entries = map fst entries.
Proof.
  unfold os.filenames.
  induction 1 as [|[name n] r Hn _ [IH1 IH2]]; simpl; [split; reflexivity|].
  simpl in Hn. subst n. simpl. split; [exact IH1 | f_equal; exact IH2].
Qed.

(** The walk of a readable directory that holds nothing but files yields
    that directory alone. *)
Lemma walk_files_flat_directory (fs : os.filesystem) (directory : string)
  (entries : list (string * os.node)) :
  fs directory = Some (os.Dir true entries) ->
  Forall (fun e => snd e = os.File) entries ->
  walk_files fs directory = map (pair directory) (map fst entries).
Proof.
  intros Hfs Hfiles. unfold walk_files, os.walk. rewrite Hfs. simpl.
  destruct (walk_node_files_only directory entries Hfiles) as [Hsub Hnames].
  rewrite Hsub, Hnames. simpl. apply app_nil_r.
Qed.

(** C5. In a directory that holds exactly the files [a.txt], [b.jpg] and
    [c.pdf], listed in any order, with [txt] only in the S3 list, [jpg]
    only in the GCS list and [pdf] in neither, the run returns and logs
    exactly two records: the outcome of [a.txt] on S3 and the outcome of
    [b.jpg] on Google Cloud Storage, each a success or an error record. *)
Theorem three_files_two_outcomes
  (access_key secret_key bucket credentials_path project_id gcs_bucket : string)
  (s3_extensions gcs_extensions : list string)
  (fs : os.filesystem) (sdk : sdk_oracle) (directory : string)
  (entries : list (string * os.node))
  (calls0 : list sdk_call) (log0 : list log_record) :
  fs directory = Some (os.Dir true entries) ->
  Permutation entries
    [("a.txt", os.File); ("b.jpg", os.File); ("c.pdf", os.File)] ->
  In "txt" s3_extensions -> ~ In "txt" gcs_extensions ->
  In "jpg" gcs_extensions -> ~ In "jpg" s3_extensions ->
  ~ In "pdf" s3_extensions -> ~ In "pdf" gcs_extensions ->
  let u := __init__ access_key secret_key bucket credentials_path project_id
             gcs_bucket s3_extensions gcs_extensions in
  let final := upload_files fs sdk directory (mkState u calls0 log0) in
  exists r1 r2,
    fst final = Return tt
    /\ (log (snd final) = log0 ++ [r1; r2] \/ log (snd final) = log0 ++ [r2; r1])
    /\ is_outcome u AWS_S3 "a.txt" r1
    /\ is_outcome u Google_Cloud_Storage "b.jpg" r2.
Proof.
  intros Hfs Hperm Htxt Htxt' Hjpg Hjpg' Hpdf Hpdf' u final.
  assert (Ha : route u "a.txt" = Some AWS_S3).
  { unfold route. change (file_extension_of "a.txt") with "txt".
    subst u. simpl. rewrite contains_app.
    apply contains_In in Htxt. rewrite Htxt. reflexivity. }
  assert (Hb : route u "b.jpg" = Some Google_Cloud_Storage).
  { unfold route. change (file_extension_of "b.jpg") with "jpg".
    subst u. simpl. rewrite contains_app.
    apply contains_In in Hjpg. apply contains_not_In in Hjpg'.
    rewrite Hjpg, Hjpg'. reflexivity. }
  assert (Hc : route u "c.pdf" = None).
  { unfold route. change (file_extension_of "c.pdf") with "pdf".
    subst u. simpl. rewrite contains_app.
    apply contains_not_In in Hpdf. apply contains_not_In in Hpdf'.
    rewrite Hpdf, Hpdf'. reflexivity. }
  assert (Hfiles : Forall (fun e : string * os.node => snd e = os.File) entries).
  { eapply Permutation_Forall; [apply Permutation_sym; exact Hperm|].
    repeat constructor. }
  pose proof (walk_files_flat_directory fs directory entries Hfs Hfiles) as Hwalk.
  set (keep := fun p : string * string => routed u (snd p)).
  assert (Hkeep : Permutation
                    [(directory, "a.txt"); (directory, "b.jpg")]
                    (filter keep (walk_files fs directory))).
  { rewrite Hwalk.
    apply Permutation_sym.
    eapply Permutation_trans.
    - apply Permutation_filter_compat.
      apply Permutation_map. apply Permutation_map. exact Hperm.
    - simpl. unfold keep, routed. simpl. rewrite Ha, Hb, Hc.
      apply Permutation_refl. }
  apply Permutation_length_2_inv in Hkeep.
  subst final. rewrite upload_files_flat.
  destruct (run_files_spec sdk (walk_files fs directory) (mkState u calls0 log0))
    as (cs & outs & Hrun & Hout).
  rewrite Hrun. cbn [fst snd log self] in *. fold keep in Hout.
  assert (Hpick : forall f b r,
             route u f = Some b -> outcome_for u (directory, f) r ->
             is_outcome u b f r).
  { intros f b r Hr (b' & Hr' & Ho). simpl in Hr', Ho.
    rewrite Hr in Hr'. injection Hr' as <-. exact Ho. }
  destruct Hkeep as [Hkeep|Hkeep]; rewrite Hkeep in Hout;
    inversion Hout as [|p1 r1 l1 o1 H1 Hrest1]; subst;
    inversion Hrest1 as [|p2 r2 l2 o2 H2 Hrest2]; subst;
    inversion Hrest2; subst.
  - exists r1, r2. split; [reflexivity|]. split; [left; reflexivity|].
    split; [exact (Hpick _ _ _ Ha H1) | exact (Hpick _ _ _ Hb H2)].
  - exists r2, r1. split; [reflexivity|]. split; [right; reflexivity|].
    split; [exact (Hpick _ _ _ Ha H2) | exact (Hpick _ _ _ Hb H1)].
Qed.

(** ** The error record of a Google Cloud Storage upload (C8) *)

(** X20. Whenever an upload to Google Cloud Storage raises, the record
    logged names the S3 bucket. *)
Lemma gcs_error_record_names_s3_bucket
  (sdk : sdk_oracle) (subdir file : string) (st : state) (e : exn) :
  route (self st) file = Some Google_Cloud_Storage ->
  fst (upload_to_gcs sdk (os.path.join subdir file) file st) = Raise e ->
  log (snd (upload_files_body sdk subdir file st))
  = log st ++ [(ERROR, gcs_error_message file (s3_bucket_name (self st)) e)].
Proof.
  intros Hroute Hfail.
  change (upload_to_gcs sdk ?p ?n)
    with (backend_upload sdk Google_Cloud_Storage p n) in Hfail.
  rewrite backend_upload_spec in Hfail. cbn [fst] in Hfail.
  rewrite upload_files_body_spec, Hroute. cbv zeta. cbn [snd log].
  destruct (first_error sdk (calls st) _) as [e'|]; [|discriminate].
  injection Hfail as ->. reflexivity.
Qed.

(** C8, on the code. With S3 bucket [s3-bucket] and GCS bucket
    [gcs-bucket], when the transfer of [b.jpg] to Google Cloud Storage is
    refused, the error line logged for it reads [s3-bucket]: the GCS bucket
    is not named in it. *)
Theorem gcs_failure_line_on_test_directory :
  s3_bucket_name test_uploader = "s3-bucket"
  /\ gcs_bucket_name test_uploader = "gcs-bucket"
  /\ log (snd (upload_files data_dir sdk_gcs_down "/data" (start test_uploader)))
     = [ (INFO, "Successfully uploaded a.txt to AWS S3's s3-bucket bucket.");
         (ERROR, "Error uploading b.jpg to Google Cloud Storage's s3-bucket bucket: Forbidden") ].
Proof. repeat split. Qed.

(** ** The extension of a file name (C4, C6) *)

Lemma rfind_lower_bound (s : string) (c : ascii) : -1 <= Py.rfind s c.
Proof.
  induction s as [|a r IH]; simpl; [lia|].
  destruct (Z.leb_spec 0 (Py.rfind r c)); [lia|].
  destruct (Ascii.eqb a c); lia.
Qed.

Lemma rfind_upper_bound (s : string) (c : ascii) :
  Py.rfind s c < Z.of_nat (String.length s).
Proof.
  induction s as [|a r IH]; simpl String.length; simpl Py.rfind; [lia|].
  destruct (Z.leb_spec 0 (Py.rfind r c)); [lia|].
  destruct (Ascii.eqb a c); lia.
Qed.

Lemma rfind_absent (s : string) (c : ascii) :
  Py.occurs c s = false -> Py.rfind s c = -1.
Proof.
  induction s as [|a r IH]; simpl; [reflexivity|].
  destruct (Ascii.eqb a c); [discriminate|].
  intros H. rewrite (IH H). reflexivity.
Qed.

Lemma drop_drop_1 (n : nat) (s : string) :
  Py.drop 1 (Py.drop n s) = Py.drop (S n) s.
Proof.
  revert s. induction n as [|n IH]; intros s.
  - destruct s; reflexivity.
  - destruct s as [|a r]; [reflexivity | exact (IH r)].
Qed.

Lemma splitext_scan_shift (a : ascii) (r : string) (n : nat) (i : Z) :
  0 <= i ->
  os.path.splitext_scan (String a r) n (i + 1) = os.path.splitext_scan r n i.
Proof.
  revert i. induction n as [|n IH]; intros i Hi; simpl; [reflexivity|].
  unfold Py.slice1. replace (Z.to_nat (i + 1)) with (S (Z.to_nat i)) by lia.
  simpl Py.drop. rewrite IH by lia. reflexivity.
Qed.

(** The scan over the first [n] characters finds a character that is not a
    dot exactly when those characters are not all dots. *)
Lemma splitext_scan_all_dots (p : string) (n : nat) :
  (n <= String.length p)%nat ->
  os.path.splitext_scan p n 0 = negb (all_dots (Py.take n p)).
Proof.
  revert p. induction n as [|n IH]; intros p Hn; [reflexivity|].
  destruct p as [|a r]; simpl in Hn; [lia|].
  simpl os.path.splitext_scan. unfold Py.slice1. simpl Py.take. simpl Py.drop.
  simpl all_dots. simpl String.eqb.
  change 1 with (0 + 1).
  rewrite (splitext_scan_shift a r n 0) by lia.
  rewrite IH by lia.
  destruct (Ascii.eqb a os.path.extsep); reflexivity.
Qed.

(** [os.path.splitext(file)[1][1:].lower()] on a name without separator:
    what follows the final dot, unless only dots come before it. *)
Lemma file_extension_of_spec (file : string) :
  Py.occurs os.path.sep file = false ->
  file_extension_of file
  = if all_dots (Py.slice_to file (Py.rfind file os.path.extsep))
    then EmptyString
    else extension_after_final_dot file.
Proof.
  intros Hsep.
  unfold file_extension_of, extension_of, extension_after_final_dot,
    os.path.splitext.
  rewrite (rfind_absent file os.path.sep Hsep).
  pose proof (rfind_lower_bound file os.path.extsep) as Hlo.
  pose proof (rfind_upper_bound file os.path.extsep) as Hhi.
  set (dotIndex := Py.rfind file os.path.extsep) in *.
  destruct (Z.ltb_spec (-1) dotIndex) as [Hdot|Hdot].
  - change (-1 + 1) with 0. rewrite Z.sub_0_r.
    rewrite splitext_scan_all_dots by lia. unfold Py.slice_to.
    destruct (all_dots (Py.take (Z.to_nat dotIndex) file)); simpl negb; cbv iota.
    + reflexivity.
    + destruct (Z.ltb_spec dotIndex 0); [lia|].
      simpl snd. unfold Py.slice_from. change (Z.to_nat 1) with 1%nat.
      rewrite drop_drop_1.
      replace (Z.to_nat (dotIndex + 1)) with (S (Z.to_nat dotIndex)) by lia.
      reflexivity.
  - assert (dotIndex = -1) as -> by lia. simpl.
    destruct file; reflexivity.
Qed.

(** C4, amended. For a name without path separator, the extension the
    router uses is what follows the final dot, lower-cased by [str.lower],
    unless dots only (or nothing) come before that dot, in which case it
    is empty; it is empty too when the name has no dot or nothing follows
    the final dot.  A name whose extension is empty makes no SDK call and
    logs nothing, provided the empty string is in neither configured
    list. *)
Theorem extension_and_silent_skip
  (access_key secret_key bucket credentials_path project_id gcs_bucket : string)
  (s3_extensions gcs_extensions : list string)
  (sdk : sdk_oracle) (subdir file : string)
  (calls0 : list sdk_call) (log0 : list log_record) :
  Py.occurs os.path.sep file = false ->
  let u := __init__ access_key secret_key bucket credentials_path project_id
             gcs_bucket s3_extensions gcs_extensions in
  let st := mkState u calls0 log0 in
  file_extension_of file
  = (if all_dots (Py.slice_to file (Py.rfind file os.path.extsep))
     then EmptyString
     else extension_after_final_dot file)
  /\ (Py.occurs os.path.extsep file = false -> file_extension_of file = "")
  /\ (Py.slice_from file (Py.rfind file os.path.extsep + 1) = "" ->
      file_extension_of file = "")
  /\ (file_extension_of file = "" ->
      ~ In "" s3_extensions -> ~ In "" gcs_extensions ->
      upload_files_body sdk subdir file st = (Return tt, st)).
Proof.
  intros Hsep u st.
  pose proof (file_extension_of_spec file Hsep) as Hspec.
  split; [exact Hspec|]. split; [|split].
  - intros Hdot. rewrite Hspec. unfold extension_after_final_dot.
    rewrite (rfind_absent file os.path.extsep Hdot). reflexivity.
  - intros Htail. rewrite Hspec. unfold extension_after_final_dot.
    rewrite Htail.
    destruct (all_dots _); [reflexivity|].
    destruct (Py.rfind file os.path.extsep <? 0); reflexivity.
  - intros Hext Hs3 Hgcs. rewrite upload_files_body_spec.
    unfold route. subst st u. simpl. rewrite Hext, contains_app.
    apply contains_not_In in Hs3. apply contains_not_In in Hgcs.
    rewrite Hs3, Hgcs. reflexivity.
Qed.

(** C6, amended. The constructor stores the two lists as given.  The
    membership test lower-cases the extension of the file name only: for
    a configured extension [s] that is already lower-case ([s.lower()] is
    [s]), every file whose extension equals [s] up to letter case (the
    two have the same [lower()]) matches the list [s] is in, and is
    routed. *)
Theorem lowercase_extension_matches_any_case
  (access_key secret_key bucket credentials_path project_id gcs_bucket : string)
  (s3_extensions gcs_extensions : list string) (s file : string) :
  Py.lower unicode_lower s = s ->
  Py.lower unicode_lower (extension_of file) = Py.lower unicode_lower s ->
  let u := __init__ access_key secret_key bucket credentials_path project_id
             gcs_bucket s3_extensions gcs_extensions in
  s3_file_extensions u = s3_extensions
  /\ gcs_file_extensions u = gcs_extensions
  /\ (In s s3_extensions ->
      Py.contains (s3_file_extensions u) (file_extension_of file) = true
      /\ route u file = Some AWS_S3)
  /\ (In s gcs_extensions ->
      Py.contains (gcs_file_extensions u) (file_extension_of file) = true
      /\ routed u file = true).
Proof.
  intros Hlow Hcase u.
  assert (Hext : file_extension_of file = s).
  { unfold file_extension_of. rewrite Hcase. exact Hlow. }
  split; [reflexivity|]. split; [reflexivity|].
  unfold routed, route. subst u. simpl. rewrite Hext, contains_app.
  split.
  - intros Hin. apply contains_In in Hin. rewrite Hin. split; reflexivity.
  - intros Hin. apply contains_In in Hin. rewrite Hin.
    split; [reflexivity|]. rewrite orb_true_r.
    destruct (Py.contains s3_extensions s); reflexivity.
Qed.

(** ** The run as a whole *)

(** A property of the calls made at every routed file's turn is a
    property of all the calls a run adds. *)
Lemma run_files_calls_invariant (sdk : sdk_oracle) (P : sdk_call -> Prop)
  (pairs : list (string * string)) (st : state) :
  (forall p b history,
     In p pairs -> route (self st) (snd p) = Some b ->
     Forall P (calls_made sdk history
                 (backend_trace (self st) b (os.path.join (fst p) (snd p)) (snd p)))) ->
  exists cs outs,
    run_files sdk pairs st
    = (Return tt, mkState (self st) (calls st ++ cs) (log st ++ outs))
    /\ Forall P cs.
Proof.
  revert st. induction pairs as [|[d f] r IH]; intros st HP.
  - exists [], []. unfold run_files. simpl. unfold ret.
    rewrite !app_nil_r, state_eta. split; [reflexivity | constructor].
  - rewrite run_files_cons. unfold bind. cbn [fst snd].
    rewrite upload_files_body_spec.
    destruct (route (self st) f) as [b|] eqn:Hroute.
    + cbv beta iota zeta.
      match goal with
      | |- context [run_files sdk r ?s] =>
          destruct (IH s) as (cs & outs & Hrun & Hcs)
      end.
      { cbn [self]. intros p b' h Hin Hr. apply HP; [right; exact Hin | exact Hr]. }
      cbn [self calls log] in Hrun. rewrite Hrun.
      eexists. eexists. split.
      * rewrite <- !app_assoc. reflexivity.
      * apply Forall_app. split; [|exact Hcs].
        apply (HP (d, f) b (calls st)); [left; reflexivity | exact Hroute].
    + destruct (IH st) as (cs & outs & Hrun & Hcs).
      { intros p b' h Hin Hr. apply HP; [right; exact Hin | exact Hr]. }
      exists cs, outs. split; assumption.
Qed.

(** X1. For every directory, uploader and SDK behaviour, [upload_files]
    returns normally, keeps what was logged before, and adds exactly one
    record for each routed file of the walk, in the order of the walk,
    each being the success or the error record of that file. *)
Theorem every_routed_file_is_reported
  (fs : os.filesystem) (sdk : sdk_oracle) (directory : string) (st : state) :
  exists outs,
    fst (upload_files fs sdk directory st) = Return tt
    /\ log (snd (upload_files fs sdk directory st)) = log st ++ outs
    /\ Forall2 (outcome_for (self st))
         (filter (fun p => routed (self st) (snd p)) (walk_files fs directory))
         outs
    /\ length outs
       = length (filter (fun p => routed (self st) (snd p))
                   (walk_files fs directory)).
Proof.
  rewrite upload_files_flat.
  destruct (run_files_spec sdk (walk_files fs directory) st)
    as (cs & outs & Hrun & Hout).
  rewrite Hrun. exists outs. cbn [fst snd log].
  repeat split; [exact Hout|].
  symmetry. eapply Forall2_length. exact Hout.
Qed.

Lemma run_files_unrouted (sdk : sdk_oracle) (pairs : list (string * string))
  (st : state) :
  (forall p, In p pairs -> routed (self st) (snd p) = false) ->
  run_files sdk pairs st = (Return tt, st).
Proof.
  induction pairs as [|[d f] r IH]; intros Hno; [reflexivity|].
  rewrite run_files_cons. unfold bind. cbn [fst snd].
  rewrite upload_files_body_spec.
  pose proof (Hno (d, f) (or_introl eq_refl)) as Hf. unfold routed in Hf.
  cbn [snd] in Hf. destruct (route (self st) f); [discriminate|].
  apply IH. intros p Hin. apply Hno. right. exact Hin.
Qed.

(** X2. [upload_files] leaves the state exactly as it found it (no SDK
    call, no record) if and only if no file of the walk is routed; an
    empty directory is such a walk. *)
Theorem nothing_routed_nothing_done
  (fs : os.filesystem) (sdk : sdk_oracle) (directory : string) (st : state) :
  upload_files fs sdk directory st = (Return tt, st)
  <-> (forall p, In p (walk_files fs directory) ->
                 routed (self st) (snd p) = false).
Proof.
  rewrite upload_files_flat. split.
  - intros Hsame p Hin.
    destruct (run_files_spec sdk (walk_files fs directory) st)
      as (cs & outs & Hrun & Hout).
    rewrite Hrun in Hsame. injection Hsame as Hst.
    assert (Hlog : log st ++ outs = log st ++ []).
    { rewrite app_nil_r. rewrite <- Hst at 2. reflexivity. }
    apply app_inv_head in Hlog. subst outs. inversion Hout as [Hnil|].
    destruct (routed (self st) (snd p)) eqn:Hr; [|reflexivity].
    assert (Hp : In p (filter (fun p => routed (self st) (snd p))
                         (walk_files fs directory))).
    { apply filter_In. split; assumption. }
    rewrite <- Hnil in Hp. destruct Hp.
  - apply run_files_unrouted.
Qed.

Lemma backend_trace_on_configured (u : FileUploader) (b : backend)
  (file_path file_name : string) :
  Forall (on_configured u) (backend_trace u b file_path file_name).
Proof. destruct b; repeat constructor. Qed.

(** X3. Every SDK call a run adds is made on the uploader's own S3
    resource or Google Cloud Storage client and names the bucket configured
    for that backend: no other bucket is ever addressed. *)
Theorem calls_stay_on_configured_buckets
  (fs : os.filesystem) (sdk : sdk_oracle) (directory : string) (st : state) :
  exists cs,
    calls (snd (upload_files fs sdk directory st)) = calls st ++ cs
    /\ Forall (on_configured (self st)) cs.
Proof.
  rewrite upload_files_flat.
  destruct (run_files_calls_invariant sdk (on_configured (self st))
              (walk_files fs directory) st) as (cs & outs & Hrun & Hcs).
  { intros p b h _ _. apply calls_made_Forall, backend_trace_on_configured. }
  rewrite Hrun. exists cs. split; [reflexivity | exact Hcs].
Qed.

(** X4. Every transfer a run adds is the transfer of a routed file of the
    walk to the backend it is routed to: the remote name is the bare file
    name and the local path is the directory of the walk joined with it. *)
Theorem only_walked_files_are_transferred
  (fs : os.filesystem) (sdk : sdk_oracle) (directory : string) (st : state) :
  exists cs,
    calls (snd (upload_files fs sdk directory st)) = calls st ++ cs
    /\ Forall (names_a_file (self st) (walk_files fs directory)) cs.
Proof.
  rewrite upload_files_flat.
  destruct (run_files_calls_invariant sdk
              (names_a_file (self st) (walk_files fs directory))
              (walk_files fs directory) st) as (cs & outs & Hrun & Hcs).
  { intros [d f] b h Hin Hroute. apply calls_made_Forall. cbn [fst snd] in *.
    destruct b; repeat constructor; simpl; try (exists d); auto. }
  rewrite Hrun. exists cs. split; [reflexivity | exact Hcs].
Qed.

Lemma no_error_calls_made (sdk : sdk_oracle) (trace history : list sdk_call) :
  (forall h c, sdk h c = None) ->
  calls_made sdk history trace = trace /\ first_error sdk history trace = None.
Proof.
  intros Hok. revert history.
  induction trace as [|c r IH]; intros history; simpl; [split; reflexivity|].
  rewrite Hok. destruct (IH (history ++ [c])) as [-> ->]. split; reflexivity.
Qed.

Lemma run_files_all_succeed (sdk : sdk_oracle) (pairs : list (string * string))
  (st : state) :
  (forall h c, sdk h c = None) ->
  run_files sdk pairs st
  = (Return tt,
     mkState (self st)
       (calls st ++ planned_calls (self st) pairs)
       (log st ++ planned_log (self st) pairs)).
Proof.
  intros Hok. revert st. induction pairs as [|[d f] r IH]; intros st.
  - unfold run_files, planned_calls, planned_log. simpl. unfold ret.
    rewrite !app_nil_r, state_eta. reflexivity.
  - rewrite run_files_cons. unfold bind. cbn [fst snd].
    rewrite upload_files_body_spec.
    unfold planned_calls, planned_log. cbn [flat_map fst snd].
    destruct (route (self st) f) as [b|].
    + cbv beta iota zeta.
      destruct (no_error_calls_made sdk
                  (backend_trace (self st) b (os.path.join d f) f) (calls st) Hok)
        as [-> ->].
      rewrite IH. cbn [self calls log].
      unfold planned_calls, planned_log. rewrite <- !app_assoc. reflexivity.
    + rewrite IH. reflexivity.
Qed.

(** X5. When no SDK call raises, the run makes, in the order of the walk,
    the complete sequence of calls of every routed file and logs the
    success record of every routed file, and nothing else. *)
Theorem run_without_errors
  (fs : os.filesystem) (sdk : sdk_oracle) (directory : string) (st : state) :
  (forall h c, sdk h c = None) ->
  upload_files fs sdk directory st
  = (Return tt,
     mkState (self st)
       (calls st ++ planned_calls (self st) (walk_files fs directory))
       (log st ++ planned_log (self st) (walk_files fs directory))).
Proof.
  intros Hok. rewrite upload_files_flat. apply run_files_all_succeed, Hok.
Qed.

(** ** The shape of an extension *)

Lemma lower_char_idempotent (a : ascii) :
  Py.lower_char (Py.lower_char a) = Py.lower_char a.
Proof. destruct a as [[] [] [] [] [] [] [] []]; reflexivity. Qed.

Lemma lower_char_keeps_dot (a : ascii) :
  Ascii.eqb (Py.lower_char a) os.path.extsep = Ascii.eqb a os.path.extsep.
Proof. destruct a as [[] [] [] [] [] [] [] []]; reflexivity. Qed.

Lemma lower_char_keeps_sep (a : ascii) :
  Ascii.eqb (Py.lower_char a) os.path.sep = Ascii.eqb a os.path.sep.
Proof. destruct a as [[] [] [] [] [] [] [] []]; reflexivity. Qed.

Lemma lower_char_keeps_ascii (a : ascii) :
  (N_of_ascii (Py.lower_char a) <? 128)%N = (N_of_ascii a <? 128)%N.
Proof. destruct a as [[] [] [] [] [] [] [] []]; reflexivity. Qed.

Lemma lower_ascii_idempotent (s : string) :
  Py.lower_ascii (Py.lower_ascii s) = Py.lower_ascii s.
Proof.
  induction s as [|a r IH]; simpl; [reflexivity|].
  rewrite lower_char_idempotent, IH. reflexivity.
Qed.

Lemma is_ascii_lower_ascii (s : string) :
  Py.is_ascii (Py.lower_ascii s) = Py.is_ascii s.
Proof.
  induction s as [|a r IH]; simpl; [reflexivity|].
  rewrite lower_char_keeps_ascii, IH. reflexivity.
Qed.

Lemma occurs_lower_dot (s : string) :
  Py.occurs os.path.extsep (Py.lower_ascii s) = Py.occurs os.path.extsep s.
Proof.
  induction s as [|a r IH]; simpl; [reflexivity|].
  rewrite lower_char_keeps_dot, IH. reflexivity.
Qed.

Lemma occurs_lower_sep (s : string) :
  Py.occurs os.path.sep (Py.lower_ascii s) = Py.occurs os.path.sep s.
Proof.
  induction s as [|a r IH]; simpl; [reflexivity|].
  rewrite lower_char_keeps_sep, IH. reflexivity.
Qed.

(** On ASCII strings [str.lower] is the lower-casing of the letters [A]
    to [Z]. *)
Lemma lower_of_ascii (s : string) :
  Py.is_ascii s = true -> Py.lower unicode_lower s = Py.lower_ascii s.
Proof. intros H. unfold Py.lower. rewrite H. reflexivity. Qed.

(** Past the last occurrence of a character there is none. *)
Lemma occurs_drop_after_rfind (p : string) (c : ascii) (n : nat) :
  Py.rfind p c < Z.of_nat n -> Py.occurs c (Py.drop n p) = false.
Proof.
  revert n. induction p as [|a r IH]; intros n Hn.
  - destruct n; reflexivity.
  - simpl Py.rfind in Hn.
    pose proof (rfind_lower_bound r c) as Hlo.
    destruct n as [|m].
    + change (Py.drop 0 (String a r)) with (String a r). simpl Py.occurs.
      destruct (Z.leb_spec 0 (Py.rfind r c)); [lia|].
      destruct (Ascii.eqb a c); [lia|].
      apply (IH 0%nat). simpl. lia.
    + change (Py.drop (S m) (String a r)) with (Py.drop m r).
      apply IH.
      destruct (Z.leb_spec 0 (Py.rfind r c)); [lia|].
      destruct (Ascii.eqb a c); lia.
Qed.

(** [os.path.splitext(file)[1][1:]] is empty, or it is what follows the
    last dot, which then comes after the last separator. *)
Lemma extension_of_cases (file : string) :
  extension_of file = EmptyString
  \/ (Py.rfind file os.path.sep < Py.rfind file os.path.extsep
      /\ extension_of file
         = Py.drop (S (Z.to_nat (Py.rfind file os.path.extsep))) file).
Proof.
  unfold extension_of, os.path.splitext.
  destruct (Z.ltb_spec (Py.rfind file os.path.sep) (Py.rfind file os.path.extsep))
    as [Hlt|Hge]; [|left; reflexivity].
  cbv zeta.
  destruct (os.path.splitext_scan file _ _); [|left; reflexivity].
  right. split; [exact Hlt|].
  cbn [snd]. unfold Py.slice_from. change (Z.to_nat 1) with 1%nat.
  apply drop_drop_1.
Qed.

Lemma file_extension_shape (file : string) :
  Py.is_ascii (extension_of file) = true ->
  Py.lower unicode_lower (file_extension_of file) = file_extension_of file
  /\ Py.lower_ascii (file_extension_of file) = file_extension_of file
  /\ Py.occurs os.path.extsep (file_extension_of file) = false
  /\ Py.occurs os.path.sep (file_extension_of file) = false.
Proof.
  intros Hascii. unfold file_extension_of.
  rewrite (lower_of_ascii _ Hascii).
  rewrite lower_of_ascii by (rewrite is_ascii_lower_ascii; exact Hascii).
  rewrite lower_ascii_idempotent.
  split; [reflexivity|]. split; [reflexivity|].
  rewrite occurs_lower_dot, occurs_lower_sep.
  pose proof (rfind_lower_bound file os.path.sep) as Hsep.
  destruct (extension_of_cases file) as [->|[Hlt ->]]; [split; reflexivity|].
  split; apply occurs_drop_after_rfind; lia.
Qed.

(** X6. For every file name whose part after the final dot is made of
    ASCII characters, the extension the router tests is in lower case
    ([str.lower] leaves it as it is and it holds none of the letters [A]
    to [Z]) and holds neither a dot nor a path separator. *)
Theorem extension_is_lowercase_without_dot (file : string) :
  Py.is_ascii (extension_of file) = true ->
  Py.lower unicode_lower (file_extension_of file) = file_extension_of file
  /\ Py.lower_ascii (file_extension_of file) = file_extension_of file
  /\ Py.occurs os.path.extsep (file_extension_of file) = false
  /\ Py.occurs os.path.sep (file_extension_of file) = false.
Proof. apply file_extension_shape. Qed.

Lemma never_matches_not_contained (l : list string) (file : string) :
  Py.is_ascii (extension_of file) = true ->
  Forall (fun s => never_matches s = true) l ->
  Py.contains l (file_extension_of file) = false.
Proof.
  intros Hascii Hdead. apply contains_not_In. intros Hin.
  rewrite Forall_forall in Hdead. specialize (Hdead _ Hin).
  destruct (file_extension_shape file Hascii) as (_ & Hlow & Hdot & Hsep).
  unfold never_matches in Hdead. rewrite Hdot, Hsep, Hlow, String.eqb_refl in Hdead.
  discriminate Hdead.
Qed.

(** X7. When every configured extension is written with a dot (such as
    [.txt] or [tar.gz]), a separator or one of the upper-case letters [A]
    to [Z], no file whose part after the final dot is ASCII is ever
    uploaded: on a directory that holds such files only, the run makes no
    SDK call and logs nothing. *)
Theorem unmatchable_extensions_upload_nothing
  (access_key secret_key bucket credentials_path project_id gcs_bucket : string)
  (s3_extensions gcs_extensions : list string)
  (fs : os.filesystem) (sdk : sdk_oracle) (directory : string)
  (calls0 : list sdk_call) (log0 : list log_record) :
  Forall (fun s => never_matches s = true) s3_extensions ->
  Forall (fun s => never_matches s = true) gcs_extensions ->
  (forall p, In p (walk_files fs directory) ->
             Py.is_ascii (extension_of (snd p)) = true) ->
  let u := __init__ access_key secret_key bucket credentials_path project_id
             gcs_bucket s3_extensions gcs_extensions in
  upload_files fs sdk directory (mkState u calls0 log0)
  = (Return tt, mkState u calls0 log0).
Proof.
  intros Hs3 Hgcs Hascii u. rewrite upload_files_flat.
  apply run_files_unrouted. intros p Hin.
  unfold routed, route. subst u. cbn [self file_extensions __init__].
  rewrite (never_matches_not_contained (s3_extensions ++ gcs_extensions)).
  - reflexivity.
  - apply Hascii, Hin.
  - apply Forall_app. split; assumption.
Qed.

(** X8. With an uploader built by the constructor, a file whose extension
    is in the GCS list and not in the S3 list takes the Google Cloud
    Storage branch: the calls made at its turn are those of
    [upload_to_gcs] with the joined path and the file name, starting with
    the bucket lookup, and none of them is a call on the S3 resource. *)
Theorem gcs_only_extension_goes_to_gcs
  (access_key secret_key bucket credentials_path project_id gcs_bucket : string)
  (s3_extensions gcs_extensions : list string)
  (sdk : sdk_oracle) (subdir file : string)
  (calls0 : list sdk_call) (log0 : list log_record) :
  In (file_extension_of file) gcs_extensions ->
  ~ In (file_extension_of file) s3_extensions ->
  let u := __init__ access_key secret_key bucket credentials_path project_id
             gcs_bucket s3_extensions gcs_extensions in
  let st := mkState u calls0 log0 in
  let st' := snd (upload_files_body sdk subdir file st) in
  calls st' = calls (snd (upload_to_gcs sdk (os.path.join subdir file) file st))
  /\ exists rest,
       calls st' = calls0 ++ GCS_get_bucket (gcs u) gcs_bucket :: rest
       /\ Forall (fun c => is_gcs_call c = true) rest.
Proof.
  intros Hgcs Hs3 u st st'.
  assert (Hroute : route u file = Some Google_Cloud_Storage).
  { unfold route. subst u. simpl. rewrite contains_app.
    apply contains_In in Hgcs. apply contains_not_In in Hs3.
    rewrite Hgcs, Hs3. reflexivity. }
  subst st'. rewrite upload_files_body_spec.
  change (self st) with u. rewrite Hroute. cbv zeta.
  change (upload_to_gcs sdk ?p ?n)
    with (backend_upload sdk Google_Cloud_Storage p n).
  rewrite backend_upload_spec.
  change (self st) with u. change (calls st) with calls0. cbn [snd calls].
  split; [reflexivity|].
  pose proof (calls_made_Forall sdk (fun c => is_gcs_call c = true)
                (backend_trace u Google_Cloud_Storage (os.path.join subdir file) file)
                calls0) as Hall.
  unfold backend_trace, gcs_trace in *.
  match goal with
  | |- context [calls_made sdk calls0 (?c :: ?r)] =>
      destruct (calls_made_not_nil sdk calls0 c r) as [rest Hrest]
  end.
  rewrite Hrest in *. exists rest. split; [reflexivity|].
  assert (Hall' : Forall (fun c => is_gcs_call c = true)
                    (GCS_get_bucket (gcs u) (gcs_bucket_name u) :: rest)).
  { apply Hall. repeat constructor. }
  inversion Hall'; assumption.
Qed.

(** ** What a run does not depend on, and what it repeats *)

Lemma run_files_project_id (sdk : sdk_oracle) (project_id : string)
  (pairs : list (string * string)) (u : FileUploader)
  (calls0 : list sdk_call) (log0 : list log_record) :
  let r := run_files sdk pairs (mkState u calls0 log0) in
  let r' := run_files sdk pairs
              (mkState (with_project_id u project_id) calls0 log0) in
  fst r' = fst r /\ calls (snd r') = calls (snd r) /\ log (snd r') = log (snd r).
Proof.
  revert calls0 log0. induction pairs as [|[d f] r IH]; intros calls0 log0.
  - repeat split.
  - cbv zeta. rewrite !run_files_cons. unfold bind. cbn [fst snd].
    rewrite !upload_files_body_spec. cbn [self calls log].
    change (route (with_project_id u project_id) f) with (route u f).
    destruct (route u f) as [b|].
    + cbv beta iota zeta.
      change (backend_trace (with_project_id u project_id) b) with (backend_trace u b).
      change (success_record (with_project_id u project_id) b)
        with (success_record u b).
      change (error_record (with_project_id u project_id) b)
        with (error_record u b).
      apply IH.
    + apply IH.
Qed.

(** X9. The project id is stored and never used: two uploaders that
    differ in [gcs_project_id] only make the same SDK calls, log the same
    records and end the same way on every directory. *)
Theorem project_id_is_never_used
  (fs : os.filesystem) (sdk : sdk_oracle) (directory project_id : string)
  (u : FileUploader) (calls0 : list sdk_call) (log0 : list log_record) :
  let r := upload_files fs sdk directory (mkState u calls0 log0) in
  let r' := upload_files fs sdk directory
              (mkState (with_project_id u project_id) calls0 log0) in
  fst r' = fst r /\ calls (snd r') = calls (snd r) /\ log (snd r') = log (snd r).
Proof.
  cbv zeta. rewrite !upload_files_flat. apply run_files_project_id.
Qed.

Lemma planned_calls_In (u : FileUploader) (pairs : list (string * string))
  (subdir file : string) (b : backend) (c : sdk_call) :
  In (subdir, file) pairs -> route u file = Some b ->
  In c (backend_trace u b (os.path.join subdir file) file) ->
  In c (planned_calls u pairs).
Proof.
  intros Hin Hroute Hc. unfold planned_calls. apply in_flat_map.
  exists (subdir, file). split; [exact Hin|]. cbn [fst snd].
  rewrite Hroute. exact Hc.
Qed.

(** X10. The remote name ignores the directory: when the walk meets a file
    name routed to S3 in two directories and no SDK call raises, both
    files are transferred to the same key of the same bucket, each from
    its own local path. *)
Theorem same_name_same_key
  (fs : os.filesystem) (sdk : sdk_oracle) (directory : string) (st : state)
  (subdir1 subdir2 file : string) :
  (forall h c, sdk h c = None) ->
  In (subdir1, file) (walk_files fs directory) ->
  In (subdir2, file) (walk_files fs directory) ->
  route (self st) file = Some AWS_S3 ->
  let u := self st in
  exists cs,
    calls (snd (upload_files fs sdk directory st)) = calls st ++ cs
    /\ In (S3_upload_file (s3 u) (s3_bucket_name u)
             (os.path.join subdir1 file) file) cs
    /\ In (S3_upload_file (s3 u) (s3_bucket_name u)
             (os.path.join subdir2 file) file) cs.
Proof.
  intros Hok H1 H2 Hroute u.
  rewrite upload_files_flat, (run_files_all_succeed sdk _ st Hok).
  exists (planned_calls (self st) (walk_files fs directory)).
  split; [reflexivity|].
  split.
  - apply (planned_calls_In (self st) _ subdir1 file AWS_S3); auto.
    right; left; reflexivity.
  - apply (planned_calls_In (self st) _ subdir2 file AWS_S3); auto.
    right; left; reflexivity.
Qed.

(** X11. When the bucket lookup on Google Cloud Storage is refused every
    time, a run never creates a blob reference nor starts a transfer to
    Google Cloud Storage, whatever the directory holds. *)
Theorem refused_bucket_lookup_stops_gcs_uploads
  (fs : os.filesystem) (sdk : sdk_oracle) (directory : string) (st : state) :
  (forall h, sdk h (GCS_get_bucket (gcs (self st)) (gcs_bucket_name (self st)))
             <> None) ->
  exists cs,
    calls (snd (upload_files fs sdk directory st)) = calls st ++ cs
    /\ Forall (fun c => is_gcs_transfer c = false) cs.
Proof.
  intros Hrefused. rewrite upload_files_flat.
  destruct (run_files_calls_invariant sdk (fun c => is_gcs_transfer c = false)
              (walk_files fs directory) st) as (cs & outs & Hrun & Hcs).
  { intros p b h _ _. destruct b.
    - apply calls_made_Forall. repeat constructor.
    - cbn [backend_trace gcs_trace calls_made].
      specialize (Hrefused h).
      destruct (sdk h (GCS_get_bucket _ _)); [|congruence].
      repeat constructor. }
  rewrite Hrun. exists cs. split; [reflexivity | exact Hcs].
Qed.

(** X12. With SDK objects that never raise (the mocks of the test suite),
    [upload_to_s3] takes the configured bucket and transfers the given path
    under the given name, [upload_to_gcs] looks the configured bucket up,
    names a blob after the given name and feeds it from the given path;
    each returns [None], makes these calls only and logs nothing. *)
Theorem upload_methods_with_mocks
  (sdk : sdk_oracle) (file_path file_name : string) (st : state) :
  (forall h c, sdk h c = None) ->
  let u := self st in
  upload_to_s3 sdk file_path file_name st
  = (Return tt,
     mkState u
       (calls st ++ [ S3_Bucket (s3 u) (s3_bucket_name u);
                      S3_upload_file (s3 u) (s3_bucket_name u) file_path file_name ])
       (log st))
  /\ upload_to_gcs sdk file_path file_name st
     = (Return tt,
        mkState u
          (calls st ++ [ GCS_get_bucket (gcs u) (gcs_bucket_name u);
                         GCS_blob (gcs u) (gcs_bucket_name u) file_name;
                         GCS_upload_from_filename (gcs u) (gcs_bucket_name u)
                           file_name file_path ])
          (log st)).
Proof.
  intros Hok u. split.
  - change (upload_to_s3 sdk file_path file_name)
      with (backend_upload sdk AWS_S3 file_path file_name).
    rewrite backend_upload_spec.
    destruct (no_error_calls_made sdk
                (backend_trace (self st) AWS_S3 file_path file_name) (calls st) Hok)
      as [-> ->]. reflexivity.
  - change (upload_to_gcs sdk file_path file_name)
      with (backend_upload sdk Google_Cloud_Storage file_path file_name).
    rewrite backend_upload_spec.
    destruct (no_error_calls_made sdk
                (backend_trace (self st) Google_Cloud_Storage file_path file_name)
                (calls st) Hok) as [-> ->]. reflexivity.
Qed.

(** ** The command line entry point *)

Lemma str_split_not_nil (sep : ascii) (s : string) : str_split sep s <> [].
Proof.
  destruct s as [|a r]; simpl; [discriminate|].
  destruct (Ascii.eqb a sep); [discriminate|].
  destruct (str_split sep r); discriminate.
Qed.

Lemma str_join_cons (sep : ascii) (x y : string) (l : list string) :
  str_join sep (x :: y :: l) = (x ++ String sep (str_join sep (y :: l)))%string.
Proof. reflexivity. Qed.

Lemma str_join_split (sep : ascii) (s : string) :
  str_join sep (str_split sep s) = s.
Proof.
  induction s as [|a r IH]; [reflexivity|].
  simpl str_split. pose proof (str_split_not_nil sep r) as Hne.
  destruct (str_split sep r) as [|piece pieces]; [congruence|].
  destruct (Ascii.eqb_spec a sep) as [->|_].
  - rewrite str_join_cons, IH. reflexivity.
  - destruct pieces as [|y l].
    + simpl in *. rewrite IH. reflexivity.
    + rewrite str_join_cons in IH. rewrite str_join_cons.
      cbn [String.append]. rewrite IH. reflexivity.
Qed.

Lemma str_split_pieces (sep : ascii) (s : string) :
  Forall (fun piece => Py.occurs sep piece = false) (str_split sep s).
Proof.
  induction s as [|a r IH]; [repeat constructor|].
  simpl str_split.
  destruct (Ascii.eqb a sep) eqn:Ha; [constructor; [reflexivity | exact IH]|].
  destruct (str_split sep r) as [|piece pieces]; [repeat constructor; simpl; now rewrite Ha|].
  inversion IH; subst. constructor; [|assumption].
  simpl. rewrite Ha. assumption.
Qed.

Lemma str_split_length (sep : ascii) (s : string) :
  length (str_split sep s) = S (count_char sep s).
Proof.
  induction s as [|a r IH]; [reflexivity|].
  simpl. destruct (Ascii.eqb a sep); simpl; [rewrite IH; reflexivity|].
  destruct (str_split sep r); simpl in *; [discriminate | exact IH].
Qed.

(** What a successful load of the configuration tells. *)
Lemma cli_uploader_inv (source : config_source) (factory : factory_oracle)
  (config : string) (parser : config_parser) (u : FileUploader) :
  source config = Return parser ->
  cli_uploader source factory config = Return u ->
  exists v1 v2 v3 v4 v5 v6 v7 v8,
    parser "s3" "access_key" = Return v1
    /\ parser "s3" "secret_key" = Return v2
    /\ parser "s3" "bucket_name" = Return v3
    /\ parser "gcs" "credentials_path" = Return v4
    /\ parser "gcs" "project_id" = Return v5
    /\ parser "gcs" "bucket_name" = Return v6
    /\ parser "s3" "extensions" = Return v7
    /\ parser "gcs" "extensions" = Return v8
    /\ u = __init__ v1 v2 v3 v4 v5 v6 (str_split "," v7) (str_split "," v8).
Proof.
  intros Hsource Hload. unfold cli_uploader in Hload.
  rewrite Hsource in Hload. cbn [result_bind] in Hload.
  destruct (parser "s3" "access_key") as [v1|]; [|discriminate].
  destruct (parser "s3" "secret_key") as [v2|]; [|discriminate].
  destruct (parser "s3" "bucket_name") as [v3|]; [|discriminate].
  destruct (parser "gcs" "credentials_path") as [v4|]; [|discriminate].
  destruct (parser "gcs" "project_id") as [v5|]; [|discriminate].
  destruct (parser "gcs" "bucket_name") as [v6|]; [|discriminate].
  destruct (parser "s3" "extensions") as [v7|]; [|discriminate].
  destruct (parser "gcs" "extensions") as [v8|]; [|discriminate].
  cbn [result_bind] in Hload. unfold new_FileUploader in Hload.
  destruct (factory (boto3_resource_s3 v1 v2)); [discriminate|].
  destruct (factory (Client_from_service_account_json v4)); [discriminate|].
  injection Hload as <-.
  exists v1, v2, v3, v4, v5, v6, v7, v8. repeat split.
Qed.

(** The function under the decorator raises only before it uploads. *)
Lemma cli_callback_ends (source : config_source) (factory : factory_oracle)
  (fs : os.filesystem) (sdk : sdk_oracle) (config directory : string) :
  match cli_uploader source factory config with
  | Raise e =>
      cli_callback source factory fs sdk config directory = (Raise e, [], [])
  | Return u =>
      fst (fst (cli_callback source factory fs sdk config directory)) = Return tt
  end.
Proof.
  unfold cli_callback.
  destruct (cli_uploader source factory config) as [u|e]; [|reflexivity].
  rewrite upload_files_flat.
  destruct (run_files_spec sdk (walk_files fs directory) (mkState u [] []))
    as (cs & outs & Hrun & _).
  rewrite Hrun. reflexivity.
Qed.

Lemma cli_ends (source : config_source) (factory : factory_oracle)
  (fs : os.filesystem) (sdk : sdk_oracle) (config directory : string) :
  match cli_uploader source factory config with
  | Raise e => cli source factory fs sdk config directory = (Propagated e, [], [])
  | Return u =>
      fst (fst (cli source factory fs sdk config directory)) = SystemExit 0
  end.
Proof.
  pose proof (cli_callback_ends source factory fs sdk config directory) as H.
  unfold cli.
  destruct (cli_uploader source factory config) as [u|e].
  - destruct (cli_callback source factory fs sdk config directory)
      as [[[[]|e] cs] records]; [reflexivity | discriminate H].
  - rewrite H. reflexivity.
Qed.

(** X13. How the command ends depends on the configuration and on the
    client factories only, never on the directory, on what the file
    system holds or on what the SDK does: it leaves by [SystemExit(0)],
    even when every upload failed, unless loading the configuration or
    creating a client raised, and then that exception comes out with no
    SDK call made and nothing logged. *)
Theorem cli_exit_ignores_the_uploads
  (source : config_source) (factory : factory_oracle) (config : string)
  (fs fs' : os.filesystem) (sdk sdk' : sdk_oracle) (directory directory' : string) :
  fst (fst (cli source factory fs sdk config directory))
  = fst (fst (cli source factory fs' sdk' config directory'))
  /\ (fst (fst (cli source factory fs sdk config directory)) = SystemExit 0
      \/ exists e,
           cli_uploader source factory config = Raise e
           /\ cli source factory fs sdk config directory = (Propagated e, [], [])).
Proof.
  pose proof (cli_ends source factory fs sdk config directory) as H.
  pose proof (cli_ends source factory fs' sdk' config directory') as H'.
  destruct (cli_uploader source factory config) as [u|e].
  - rewrite H, H'. split; [reflexivity | left; reflexivity].
  - rewrite H, H'. split; [reflexivity|]. right. exists e. split; reflexivity.
Qed.

(** X14. Each of the eight settings is required, the project id
    included: when fetching any one of them raises, [cli] lets an
    exception out and makes no SDK call and logs nothing. *)
Theorem every_setting_is_required
  (source : config_source) (factory : factory_oracle)
  (fs : os.filesystem) (sdk : sdk_oracle) (config directory : string)
  (parser : config_parser) (section option : string) (e : exn) :
  source config = Return parser ->
  In (section, option) required_settings ->
  parser section option = Raise e ->
  exists e',
    cli source factory fs sdk config directory = (Propagated e', [], []).
Proof.
  intros Hsource Hin Hraise.
  pose proof (cli_ends source factory fs sdk config directory) as Haux.
  destruct (cli_uploader source factory config) as [u|e'] eqn:Hload.
  - destruct (cli_uploader_inv source factory config parser u Hsource Hload)
      as (v1 & v2 & v3 & v4 & v5 & v6 & v7 & v8
          & H1 & H2 & H3 & H4 & H5 & H6 & H7 & H8 & _).
    unfold required_settings in Hin. simpl in Hin.
    repeat (destruct Hin as [Hin|Hin];
            [injection Hin as <- <-; congruence|]).
    destruct Hin.
  - exists e'. exact Haux.
Qed.

(** X15. The extension lists [cli] hands to the uploader are the pieces of
    the two [extensions] settings between their commas, kept as written:
    joined by commas they give the settings back, each list has one more
    item than its setting has commas (so it is never empty), and no item
    holds a comma. *)
Theorem extension_lists_are_the_split_settings
  (source : config_source) (factory : factory_oracle) (config : string)
  (parser : config_parser) (u : FileUploader) (s3_setting gcs_setting : string) :
  source config = Return parser ->
  parser "s3" "extensions" = Return s3_setting ->
  parser "gcs" "extensions" = Return gcs_setting ->
  cli_uploader source factory config = Return u ->
  str_join "," (s3_file_extensions u) = s3_setting
  /\ str_join "," (gcs_file_extensions u) = gcs_setting
  /\ length (s3_file_extensions u) = S (count_char "," s3_setting)
  /\ length (gcs_file_extensions u) = S (count_char "," gcs_setting)
  /\ Forall (fun item => Py.occurs "," item = false) (file_extensions u).
Proof.
  intros Hsource Hs3 Hgcs Hload.
  destruct (cli_uploader_inv source factory config parser u Hsource Hload)
    as (v1 & v2 & v3 & v4 & v5 & v6 & v7 & v8
        & _ & _ & _ & _ & _ & _ & H7 & H8 & ->).
  rewrite Hs3 in H7. rewrite Hgcs in H8.
  injection H7 as <-. injection H8 as <-.
  cbn [s3_file_extensions gcs_file_extensions file_extensions __init__].
  rewrite !str_join_split, !str_split_length.
  repeat split. apply Forall_app. split; apply str_split_pieces.
Qed.

(** X16. When the [extensions] setting of S3 is empty, the S3 list is
    [['']] and every file whose extension is empty (a name without a dot,
    a hidden file, a name that ends with a dot) is uploaded to S3: at its
    turn the calls of [upload_to_s3] are made and one record is logged. *)
Theorem empty_s3_setting_uploads_extensionless_files
  (source : config_source) (factory : factory_oracle) (config : string)
  (parser : config_parser) (u : FileUploader)
  (sdk : sdk_oracle) (subdir file : string)
  (calls0 : list sdk_call) (log0 : list log_record) :
  source config = Return parser ->
  parser "s3" "extensions" = Return "" ->
  cli_uploader source factory config = Return u ->
  file_extension_of file = "" ->
  let st := mkState u calls0 log0 in
  let st' := snd (upload_files_body sdk subdir file st) in
  s3_file_extensions u = [""]
  /\ calls st' = calls (snd (upload_to_s3 sdk (os.path.join subdir file) file st))
  /\ exists record, log st' = log0 ++ [record]
                    /\ is_outcome u AWS_S3 file record.
Proof.
  intros Hsource Hs3 Hload Hext st st'.
  destruct (cli_uploader_inv source factory config parser u Hsource Hload)
    as (v1 & v2 & v3 & v4 & v5 & v6 & v7 & v8
        & _ & _ & _ & _ & _ & _ & H7 & _ & Hu).
  rewrite Hs3 in H7. injection H7 as <-.
  assert (Hlist : s3_file_extensions u = [""]) by (rewrite Hu; reflexivity).
  assert (Hroute : route u file = Some AWS_S3).
  { unfold route. rewrite Hext, Hlist. rewrite Hu. reflexivity. }
  split; [exact Hlist|].
  subst st'. rewrite upload_files_body_spec.
  change (self st) with u. rewrite Hroute. cbv zeta.
  change (upload_to_s3 sdk ?p ?n) with (backend_upload sdk AWS_S3 p n).
  rewrite backend_upload_spec.
  change (self st) with u. change (calls st) with calls0.
  change (log st) with log0. cbn [snd calls log].
  split; [reflexivity|].
  eexists. split; [reflexivity|]. unfold is_outcome.
  destruct (first_error sdk calls0 _) as [e|]; [right; exists e | left];
    reflexivity.
Qed.

(** ** Where the walk goes *)

Lemma node_nested_ind (P : os.node -> Prop) :
  P os.File -> P os.DirLink ->
  (forall b entries, Forall (fun e => P (snd e)) entries -> P (os.Dir b entries)) ->
  forall n, P n.
Proof.
  intros HFile HLink HDir.
  refine (fix IH (n : os.node) : P n :=
            match n with
            | os.File => HFile
            | os.DirLink => HLink
            | os.Dir b entries =>
                HDir b entries
                  ((fix all (es : list (string * os.node))
                      : Forall (fun e => P (snd e)) es :=
                      match es with
                      | [] => Forall_nil _
                      | e :: r => Forall_cons e (IH (snd e)) (all r)
                      end) entries)
            end).
Qed.

Lemma has_prefix_app (p s : string) : has_prefix p (p ++ s)%string = true.
Proof.
  induction p as [|a p IH]; [reflexivity|].
  simpl. rewrite Ascii.eqb_refl. exact IH.
Qed.

Lemma has_prefix_refl (p : string) : has_prefix p p = true.
Proof.
  induction p as [|a p IH]; [reflexivity|].
  simpl. rewrite Ascii.eqb_refl. exact IH.
Qed.

Lemma has_prefix_trans (p q s : string) :
  has_prefix p q = true -> has_prefix q s = true -> has_prefix p s = true.
Proof.
  revert q s. induction p as [|a p IH]; intros q s Hpq Hqs; [reflexivity|].
  destruct q as [|b q]; [discriminate|]. destruct s as [|c s]; [discriminate|].
  simpl in *. apply andb_true_iff in Hpq as [Hab Hpq].
  apply andb_true_iff in Hqs as [Hbc Hqs].
  apply Ascii.eqb_eq in Hab. apply Ascii.eqb_eq in Hbc. subst.
  rewrite Ascii.eqb_refl. simpl. eapply IH; eassumption.
Qed.

(** Joining a name that is not absolute stays under the directory. *)
Lemma join_has_prefix (a b : string) :
  Py.startswith b os.path.sep = false ->
  has_prefix a (os.path.join a b) = true.
Proof.
  intros Hb. unfold os.path.join. rewrite Hb.
  destruct (_ || _)%bool; apply has_prefix_app.
Qed.

Lemma names_relative_entries (b : bool) (entries : list (string * os.node)) :
  names_relative (os.Dir b entries) = true ->
  Forall (fun e => Py.startswith (fst e) os.path.sep = false
                   /\ names_relative (snd e) = true) entries.
Proof.
  simpl. intros H. rewrite forallb_forall in H. apply Forall_forall.
  intros e Hin. specialize (H e Hin). apply andb_true_iff in H as [H1 H2].
  split; [apply negb_true_iff; exact H1 | exact H2].
Qed.

(** Every directory the walk yields lies under the root, and no file
    name it yields is absolute. *)
Lemma walk_node_under_top (n : os.node) :
  forall top,
    names_relative n = true ->
    Forall (fun t => has_prefix top (fst (fst t)) = true
                     /\ Forall (fun f => Py.startswith f os.path.sep = false)
                          (snd t))
      (os.walk_node top n).
Proof.
  induction n as [| |b entries IH] using node_nested_ind; intros top Hrel;
    try (constructor; fail).
  destruct b; [|constructor].
  pose proof (names_relative_entries true entries Hrel) as Hentries.
  cbn [os.walk_node]. constructor.
  - cbn [fst snd]. split; [apply has_prefix_refl|].
    unfold os.filenames. apply Forall_map.
    apply Forall_forall. intros e He. apply filter_In in He as [He _].
    rewrite Forall_forall in Hentries. apply (Hentries e He).
  - clear Hrel. induction entries as [|e r IHr]; [constructor|].
    cbn [flat_map]. inversion IH as [|? ? IHe IHrest]; subst.
    inversion Hentries as [|? ? [Hname Hchild] Hrest]; subst.
    apply Forall_app. split; [|apply IHr; assumption].
    specialize (IHe (os.path.join top (fst e)) Hchild).
    eapply Forall_impl; [|exact IHe].
    intros t [Hpre Hfiles]. split; [|exact Hfiles].
    eapply has_prefix_trans; [|exact Hpre].
    apply join_has_prefix, Hname.
Qed.

Lemma walk_files_under_root (fs : os.filesystem) (directory : string)
  (n : os.node) :
  fs directory = Some n -> names_relative n = true ->
  forall p, In p (walk_files fs directory) ->
            has_prefix directory (os.path.join (fst p) (snd p)) = true.
Proof.
  intros Hfs Hrel [d f] Hin. unfold walk_files, os.walk in Hin. rewrite Hfs in Hin.
  apply in_flat_map in Hin as (t & Ht & Hp).
  apply in_map_iff in Hp as (f' & Heq & Hf'). injection Heq as <- <-.
  pose proof (walk_node_under_top n directory Hrel) as Hall.
  rewrite Forall_forall in Hall. destruct (Hall t Ht) as [Hpre Hfiles].
  rewrite Forall_forall in Hfiles. cbn [fst snd].
  eapply has_prefix_trans; [exact Hpre|].
  apply join_has_prefix, Hfiles, Hf'.
Qed.

(** X17. On a tree whose entry names are not absolute (the names of a
    directory listing hold no separator), every local path a run hands to
    a backend starts with the root directory given to [upload_files]:
    nothing outside the root is read. *)
Theorem local_paths_lie_under_root
  (fs : os.filesystem) (sdk : sdk_oracle) (directory : string) (st : state)
  (n : os.node) :
  fs directory = Some n ->
  names_relative n = true ->
  exists cs,
    calls (snd (upload_files fs sdk directory st)) = calls st ++ cs
    /\ Forall (reads_under directory) cs.
Proof.
  intros Hfs Hrel. rewrite upload_files_flat.
  destruct (run_files_calls_invariant sdk (reads_under directory)
              (walk_files fs directory) st) as (cs & outs & Hrun & Hcs).
  { intros p b h Hin _. apply calls_made_Forall.
    pose proof (walk_files_under_root fs directory n Hfs Hrel p Hin) as Hp.
    destruct b; repeat constructor; exact Hp. }
  rewrite Hrun. exists cs. split; [reflexivity | exact Hcs].
Qed.

Lemma filenames_In (entries : list (string * os.node)) (file : string) :
  In file (os.filenames entries)
  <-> exists n, In (file, n) entries /\ os.is_dir n = false.
Proof.
  unfold os.filenames. rewrite in_map_iff. split.
  - intros ([f n] & <- & Hin). apply filter_In in Hin as [Hin Hn].
    exists n. split; [exact Hin|]. apply negb_true_iff. exact Hn.
  - intros (n & Hin & Hn). exists (file, n). split; [reflexivity|].
    apply filter_In. split; [exact Hin|]. apply negb_true_iff. exact Hn.
Qed.

Lemma walk_node_reaches (n : os.node) :
  forall top subdir file,
    (exists dirs files, In (subdir, dirs, files) (os.walk_node top n)
                        /\ In file files)
    -> reaches top n subdir file.
Proof.
  induction n as [| |b entries IH] using node_nested_ind;
    intros top subdir file (dirs & files & Hin & Hfile);
    try (destruct Hin; fail).
  destruct b; [|destruct Hin].
  cbn [os.walk_node] in Hin. destruct Hin as [Heq|Hin].
  - injection Heq as <- <- <-.
    apply filenames_In in Hfile as (n & Hn & Hdir).
    eapply reaches_here; eassumption.
  - apply in_flat_map in Hin as ([name child] & He & Hin).
    rewrite Forall_forall in IH. cbn [fst snd] in Hin.
    eapply reaches_below; [exact He|].
    apply (IH (name, child) He). exists dirs, files. split; assumption.
Qed.

Lemma reaches_walk_node (top : string) (n : os.node) (subdir file : string) :
  reaches top n subdir file ->
  exists dirs files, In (subdir, dirs, files) (os.walk_node top n)
                     /\ In file files.
Proof.
  induction 1 as [top entries file n Hin Hdir
                 |top entries name child subdir file Hin _ IH].
  - exists (os.dirnames entries), (os.filenames entries).
    split; [left; reflexivity|].
    apply filenames_In. exists n. split; assumption.
  - destruct IH as (dirs & files & Hwalk & Hfile).
    exists dirs, files. split; [|exact Hfile].
    cbn [os.walk_node]. right. apply in_flat_map.
    exists (name, child). split; [exact Hin | exact Hwalk].
Qed.

(** X18. The files a run considers are exactly those reached from the
    root through directories that can be listed, links to directories not
    being entered: a pair (directory, file name) is met by the loops of
    [upload_files] if and only if the directory is so reached and lists
    the name as something that is not a directory. *)
Theorem walk_meets_exactly_the_reachable_files
  (fs : os.filesystem) (directory subdir file : string) (n : os.node) :
  fs directory = Some n ->
  (In (subdir, file) (walk_files fs directory) <-> reaches directory n subdir file).
Proof.
  intros Hfs. unfold walk_files, os.walk. rewrite Hfs. split.
  - intros Hin. apply in_flat_map in Hin as ([[d dirs] files] & Ht & Hp).
    cbn [fst snd] in Hp. apply in_map_iff in Hp as (f & Heq & Hf).
    injection Heq as <- <-.
    apply walk_node_reaches. exists dirs, files. split; assumption.
  - intros Hreach. apply reaches_walk_node in Hreach as (dirs & files & Ht & Hf).
    apply in_flat_map. exists (subdir, dirs, files). split; [exact Ht|].
    cbn [fst snd]. apply in_map. exact Hf.
Qed.

(** X19. Both clients are created before anything is uploaded: when the
    settings load and the creation of the Google Cloud Storage client
    raises [e] (a credentials file that is missing, say), [cli] lets [e]
    out without any SDK call or log record, files routed to S3 included. *)
Theorem broken_gcs_credentials_stop_everything
  (source : config_source) (factory : factory_oracle)
  (fs : os.filesystem) (sdk : sdk_oracle) (config directory : string)
  (parser : config_parser) (v1 v2 v3 v4 v5 v6 v7 v8 : string) (e : exn) :
  source config = Return parser ->
  parser "s3" "access_key" = Return v1 ->
  parser "s3" "secret_key" = Return v2 ->
  parser "s3" "bucket_name" = Return v3 ->
  parser "gcs" "credentials_path" = Return v4 ->
  parser "gcs" "project_id" = Return v5 ->
  parser "gcs" "bucket_name" = Return v6 ->
  parser "s3" "extensions" = Return v7 ->
  parser "gcs" "extensions" = Return v8 ->
  factory (boto3_resource_s3 v1 v2) = None ->
  factory (Client_from_service_account_json v4) = Some e ->
  cli source factory fs sdk config directory = (Propagated e, [], []).
Proof.
  intros Hsource H1 H2 H3 H4 H5 H6 H7 H8 Hs3 Hgcs.
  unfold cli, cli_callback, cli_uploader. rewrite Hsource. cbn [result_bind].
  rewrite H1, H2, H3, H4, H5, H6, H7, H8. cbn [result_bind].
  unfold new_FileUploader. rewrite Hs3, Hgcs. reflexivity.
Qed.

(** The command line run on the sample configuration and directory. *)
Example cli_on_sample_configuration :
  cli sample_source factory_ok data_dir sdk_always_ok "config.ini" "/data"
  = (SystemExit 0,
     [ S3_Bucket (s3 test_uploader) "s3-bucket";
       S3_upload_file (s3 test_uploader) "s3-bucket" "/data/a.txt" "a.txt";
       GCS_get_bucket (gcs test_uploader) "gcs-bucket";
       GCS_blob (gcs test_uploader) "gcs-bucket" "b.jpg";
       GCS_upload_from_filename (gcs test_uploader) "gcs-bucket"
         "b.jpg" "/data/b.jpg" ],
     [ (INFO, "Successfully uploaded a.txt to AWS S3's s3-bucket bucket.");
       (INFO, "Successfully uploaded b.jpg to Google Cloud Storage's gcs-bucket bucket.") ]).
Proof. reflexivity. Qed.

Example str_split_examples :
  str_split "," "" = [""]
  /\ str_split "," "txt" = ["txt"]
  /\ str_split "," "txt,csv" = ["txt"; "csv"]
  /\ str_split "," "a,,b," = ["a"; ""; "b"; ""]
  /\ str_split "," "txt, jpg" = ["txt"; " jpg"].
Proof. repeat split. Qed.

End WithUnicodeTables.

(** ** Counterexamples and witnesses

    Evaluations on concrete, ASCII inputs; the Unicode tables are not
    consulted there and [no_unicode] stands for them. *)

Lemma upload_failure_is_isolated_witness :
  let st0 := start test_uploader in
  let e := Exception "AccessDenied" in
  let after := [("/data", "b.jpg"); ("/data", "c.pdf")] in
  walk_files data_dir "/data" = [] ++ ("/data", "a.txt") :: after
  /\ route no_unicode (self st0) "a.txt" = Some AWS_S3
  /\ fst (backend_upload sdk_s3_down AWS_S3 (os.path.join "/data" "a.txt") "a.txt"
            (snd (run_files no_unicode sdk_s3_down [] st0))) = Raise e
  /\ exists outs,
       fst (upload_files no_unicode data_dir sdk_s3_down "/data" st0) = Return tt
       /\ log (snd (upload_files no_unicode data_dir sdk_s3_down "/data" st0))
          = log (snd (run_files no_unicode sdk_s3_down [] st0))
            ++ error_record (self st0) AWS_S3 "a.txt" e :: outs
       /\ Forall2 (outcome_for no_unicode (self st0))
            (filter (fun p => routed no_unicode (self st0) (snd p)) after) outs.
Proof.
  intros st0 e after.
  assert (H1 : walk_files data_dir "/data" = [] ++ ("/data", "a.txt") :: after)
    by reflexivity.
  assert (H2 : route no_unicode (self st0) "a.txt" = Some AWS_S3) by reflexivity.
  assert (H3 : fst (backend_upload sdk_s3_down AWS_S3
                      (os.path.join "/data" "a.txt") "a.txt"
                      (snd (run_files no_unicode sdk_s3_down [] st0))) = Raise e)
    by reflexivity.
  split; [exact H1|]. split; [exact H2|]. split; [exact H3|].
  exact (upload_failure_is_isolated no_unicode data_dir sdk_s3_down "/data" st0
           [] after "/data" "a.txt" AWS_S3 e H1 H2 H3).
Defined.

(** C2, as the specification states it, fails: on a root that does not
    exist the run does not raise, it returns normally. *)
Lemma missing_root_does_not_raise :
  no_such_directory "/no/such/dir" = None
  /\ fst (upload_files no_unicode no_such_directory sdk_always_ok "/no/such/dir"
            (start test_uploader)) = Return tt
  /\ ~ (exists e,
          fst (upload_files no_unicode no_such_directory sdk_always_ok "/no/such/dir"
                 (start test_uploader)) = Raise e).
Proof.
  split; [reflexivity|]. split; [reflexivity|].
  intros [e He]. discriminate He.
Qed.

Lemma unlistable_root_is_an_empty_run_witness :
  root_unlistable no_such_directory "/no/such/dir" = true
  /\ upload_files no_unicode no_such_directory sdk_s3_down "/no/such/dir"
       (start test_uploader)
     = (Return tt, start test_uploader).
Proof.
  split; [reflexivity|].
  apply (unlistable_root_is_an_empty_run no_unicode no_such_directory sdk_s3_down
           "/no/such/dir" (start test_uploader)).
  reflexivity.
Defined.

Lemma routed_file_is_uploaded_under_its_name_witness :
  let st0 := start test_uploader in
  let u := self st0 in
  walk_files data_dir "/data"
  = [("/data", "a.txt")] ++ ("/data", "b.jpg") :: [("/data", "c.pdf")]
  /\ route no_unicode u "b.jpg" = Some Google_Cloud_Storage
  /\ exists later,
       calls (snd (upload_files no_unicode data_dir sdk_always_ok "/data" st0))
       = calls (snd (backend_upload sdk_always_ok Google_Cloud_Storage
                       "/data/b.jpg" "b.jpg"
                       (snd (run_files no_unicode sdk_always_ok [("/data", "a.txt")] st0))))
         ++ later
       /\ calls (snd (backend_upload sdk_always_ok Google_Cloud_Storage
                        "/data/b.jpg" "b.jpg"
                        (snd (run_files no_unicode sdk_always_ok [("/data", "a.txt")] st0))))
          = calls (snd (run_files no_unicode sdk_always_ok [("/data", "a.txt")] st0))
            ++ calls_made sdk_always_ok
                 (calls (snd (run_files no_unicode sdk_always_ok [("/data", "a.txt")] st0)))
                 [ GCS_get_bucket (gcs u) "gcs-bucket";
                   GCS_blob (gcs u) "gcs-bucket" "b.jpg";
                   GCS_upload_from_filename (gcs u) "gcs-bucket"
                     "b.jpg" "/data/b.jpg" ].
Proof.
  intros st0 u.
  assert (H1 : walk_files data_dir "/data"
               = [("/data", "a.txt")] ++ ("/data", "b.jpg") :: [("/data", "c.pdf")])
    by reflexivity.
  assert (H2 : route no_unicode (self st0) "b.jpg" = Some Google_Cloud_Storage)
    by reflexivity.
  split; [exact H1|]. split; [exact H2|].
  exact (routed_file_is_uploaded_under_its_name no_unicode data_dir sdk_always_ok "/data"
           st0 [("/data", "a.txt")] [("/data", "c.pdf")] "/data" "b.jpg"
           Google_Cloud_Storage H1 H2).
Defined.

Lemma overlapping_extension_goes_to_s3_witness :
  let u := __init__ "k" "s" "s3-bucket" "c.json" "p" "gcs-bucket"
             ["txt"; "csv"] ["csv"; "jpg"] in
  let st := mkState u [] [] in
  let st' := snd (upload_files_body no_unicode sdk_always_ok "/data" "Report.CSV" st) in
  In (file_extension_of no_unicode "Report.CSV") ["txt"; "csv"]
  /\ In (file_extension_of no_unicode "Report.CSV") ["csv"; "jpg"]
  /\ route no_unicode u "Report.CSV" = Some AWS_S3
  /\ calls st'
     = calls (snd (upload_to_s3 sdk_always_ok
                     (os.path.join "/data" "Report.CSV") "Report.CSV" st))
  /\ exists rest,
       calls st' = [] ++ S3_Bucket (s3 u) "s3-bucket" :: rest
       /\ Forall (fun c => is_gcs_call c = false) rest.
Proof.
  intros u st st'.
  assert (H1 : In (file_extension_of no_unicode "Report.CSV") ["txt"; "csv"])
    by (right; left; reflexivity).
  assert (H2 : In (file_extension_of no_unicode "Report.CSV") ["csv"; "jpg"])
    by (left; reflexivity).
  split; [exact H1|]. split; [exact H2|].
  exact (overlapping_extension_goes_to_s3 no_unicode "k" "s" "s3-bucket" "c.json" "p"
           "gcs-bucket" ["txt"; "csv"] ["csv"; "jpg"] sdk_always_ok
           "/data" "Report.CSV" [] [] H1 H2).
Defined.

Lemma three_files_two_outcomes_witness :
  let u := test_uploader in
  let entries := [("c.pdf", os.File); ("b.jpg", os.File); ("a.txt", os.File)] in
  let fs : os.filesystem :=
    fun top => if String.eqb top "/in" then Some (os.Dir true entries) else None in
  let final := upload_files no_unicode fs sdk_s3_down "/in" (mkState u [] []) in
  fs "/in" = Some (os.Dir true entries)
  /\ Permutation entries
       [("a.txt", os.File); ("b.jpg", os.File); ("c.pdf", os.File)]
  /\ In "txt" ["txt"] /\ ~ In "txt" ["jpg"]
  /\ In "jpg" ["jpg"] /\ ~ In "jpg" ["txt"]
  /\ ~ In "pdf" ["txt"] /\ ~ In "pdf" ["jpg"]
  /\ exists r1 r2,
       fst final = Return tt
       /\ (log (snd final) = [] ++ [r1; r2] \/ log (snd final) = [] ++ [r2; r1])
       /\ is_outcome u AWS_S3 "a.txt" r1
       /\ is_outcome u Google_Cloud_Storage "b.jpg" r2.
Proof.
  intros u entries fs final.
  assert (H1 : fs "/in" = Some (os.Dir true entries)) by reflexivity.
  assert (H2 : Permutation entries
                 [("a.txt", os.File); ("b.jpg", os.File); ("c.pdf", os.File)]).
  { unfold entries.
    eapply perm_trans; [apply perm_swap|].
    eapply perm_trans; [apply perm_skip; apply perm_swap|].
    eapply perm_trans; [apply perm_swap|]. apply Permutation_refl. }
  assert (H3 : In "txt" ["txt"]) by (left; reflexivity).
  assert (H4 : ~ In "txt" ["jpg"]) by (simpl; intros [H|[]]; discriminate H).
  assert (H5 : In "jpg" ["jpg"]) by (left; reflexivity).
  assert (H6 : ~ In "jpg" ["txt"]) by (simpl; intros [H|[]]; discriminate H).
  assert (H7 : ~ In "pdf" ["txt"]) by (simpl; intros [H|[]]; discriminate H).
  assert (H8 : ~ In "pdf" ["jpg"]) by (simpl; intros [H|[]]; discriminate H).
  repeat (split; [assumption|]).
  exact (three_files_two_outcomes no_unicode "access_key" "secret_key" "s3-bucket"
           "credentials.json" "test_project" "gcs-bucket" ["txt"] ["jpg"]
           fs sdk_s3_down "/in" entries [] [] H1 H2 H3 H4 H5 H6 H7 H8).
Defined.

(** C4, as the specification states it, fails twice.  The extension of
    [.txt] is empty, not [txt], so a hidden file named by its extension is
    not uploaded although [txt] is configured; and a name without a dot is
    uploaded when the empty string is among the configured extensions
    (which is what an empty [extensions] setting splits into). *)
Lemma extension_is_not_always_after_final_dot :
  extension_after_final_dot no_unicode ".txt" = "txt"
  /\ file_extension_of no_unicode ".txt" = ""
  /\ upload_files_body no_unicode sdk_always_ok "/data" ".txt" (start test_uploader)
     = (Return tt, start test_uploader)
  /\ (let u := __init__ "k" "s" "s3-bucket" "c.json" "p" "gcs-bucket" [""] ["jpg"] in
      Py.occurs "." "README" = false
      /\ snd (upload_files_body no_unicode sdk_always_ok "/data" "README" (start u))
         = mkState u
             [ S3_Bucket (s3 u) "s3-bucket";
               S3_upload_file (s3 u) "s3-bucket" "/data/README" "README" ]
             [ (INFO, "Successfully uploaded README to AWS S3's s3-bucket bucket.") ]).
Proof. repeat split. Qed.

Lemma extension_and_silent_skip_witness :
  let u := __init__ "k" "s" "s3-bucket" "c.json" "p" "gcs-bucket" ["txt"] ["jpg"] in
  let st := mkState u [] [] in
  (Py.occurs os.path.sep "README" = false
   /\ Py.occurs os.path.extsep "README" = false
   /\ file_extension_of no_unicode "README" = ""
   /\ upload_files_body no_unicode sdk_always_ok "/data" "README" st
      = (Return tt, st))
  /\ (Py.occurs os.path.sep "archive." = false
      /\ Py.slice_from "archive." (Py.rfind "archive." os.path.extsep + 1) = ""
      /\ file_extension_of no_unicode "archive." = ""
      /\ upload_files_body no_unicode sdk_always_ok "/data" "archive." st
         = (Return tt, st))
  /\ (Py.occurs os.path.sep ".bashrc" = false
      /\ all_dots (Py.slice_to ".bashrc" (Py.rfind ".bashrc" os.path.extsep)) = true
      /\ file_extension_of no_unicode ".bashrc" = ""
      /\ upload_files_body no_unicode sdk_always_ok "/data" ".bashrc" st
         = (Return tt, st))
  /\ (Py.occurs os.path.sep "Notes.TXT" = false
      /\ all_dots (Py.slice_to "Notes.TXT" (Py.rfind "Notes.TXT" os.path.extsep))
         = false
      /\ file_extension_of no_unicode "Notes.TXT"
         = extension_after_final_dot no_unicode "Notes.TXT").
Proof.
  intros u st.
  assert (Hs3 : ~ In "" ["txt"]) by (simpl; intros [H|[]]; discriminate H).
  assert (Hgcs : ~ In "" ["jpg"]) by (simpl; intros [H|[]]; discriminate H).
  assert (R1 : Py.occurs os.path.sep "README" = false) by reflexivity.
  assert (R2 : Py.occurs os.path.extsep "README" = false) by reflexivity.
  assert (A1 : Py.occurs os.path.sep "archive." = false) by reflexivity.
  assert (A2 : Py.slice_from "archive." (Py.rfind "archive." os.path.extsep + 1)
               = "") by reflexivity.
  assert (B1 : Py.occurs os.path.sep ".bashrc" = false) by reflexivity.
  assert (B2 : all_dots (Py.slice_to ".bashrc" (Py.rfind ".bashrc" os.path.extsep))
               = true) by reflexivity.
  assert (N1 : Py.occurs os.path.sep "Notes.TXT" = false) by reflexivity.
  assert (N2 : all_dots (Py.slice_to "Notes.TXT"
                           (Py.rfind "Notes.TXT" os.path.extsep)) = false)
    by reflexivity.
  split; [|split; [|split]].
  - destruct (extension_and_silent_skip no_unicode "k" "s" "s3-bucket" "c.json"
                "p" "gcs-bucket" ["txt"] ["jpg"] sdk_always_ok "/data" "README"
                [] [] R1) as (_ & Hnodot & _ & Hskip).
    repeat split; auto.
  - destruct (extension_and_silent_skip no_unicode "k" "s" "s3-bucket" "c.json"
                "p" "gcs-bucket" ["txt"] ["jpg"] sdk_always_ok "/data" "archive."
                [] [] A1) as (_ & _ & Htail & Hskip).
    repeat split; auto.
  - destruct (extension_and_silent_skip no_unicode "k" "s" "s3-bucket" "c.json"
                "p" "gcs-bucket" ["txt"] ["jpg"] sdk_always_ok "/data" ".bashrc"
                [] [] B1) as (Hext & _ & _ & Hskip).
    rewrite B2 in Hext. repeat split; auto.
  - destruct (extension_and_silent_skip no_unicode "k" "s" "s3-bucket" "c.json"
                "p" "gcs-bucket" ["txt"] ["jpg"] sdk_always_ok "/data" "Notes.TXT"
                [] [] N1) as (Hext & _).
    rewrite N2 in Hext. repeat split; auto.
Defined.

(** C6, as the specification states it, fails: the constructor keeps the
    lists as they are given, and a configured [TXT] is matched by no file,
    not even by [a.TXT] whose extension is that very string. *)
Lemma configured_extensions_are_not_normalized :
  let u := __init__ "k" "s" "s3-bucket" "c.json" "p" "gcs-bucket" ["TXT"] [".jpg"] in
  s3_file_extensions u = ["TXT"]
  /\ gcs_file_extensions u = [".jpg"]
  /\ In "TXT" (s3_file_extensions u)
  /\ extension_of "a.TXT" = "TXT"
  /\ Py.contains (s3_file_extensions u) (file_extension_of no_unicode "a.TXT") = false
  /\ route no_unicode u "a.TXT" = None
  /\ route no_unicode u "a.txt" = None.
Proof. repeat split. left. reflexivity. Qed.

Lemma lowercase_extension_matches_any_case_witness :
  let u := __init__ "k" "s" "s3-bucket" "c.json" "p" "gcs-bucket" ["txt"] ["jpg"] in
  Py.lower no_unicode "jpg" = "jpg"
  /\ Py.lower no_unicode (extension_of "Photo.JpG") = Py.lower no_unicode "jpg"
  /\ s3_file_extensions u = ["txt"]
  /\ gcs_file_extensions u = ["jpg"]
  /\ (In "jpg" ["txt"] ->
      Py.contains (s3_file_extensions u) (file_extension_of no_unicode "Photo.JpG") = true
      /\ route no_unicode u "Photo.JpG" = Some AWS_S3)
  /\ (In "jpg" ["jpg"] ->
      Py.contains (gcs_file_extensions u) (file_extension_of no_unicode "Photo.JpG") = true
      /\ routed no_unicode u "Photo.JpG" = true).
Proof.
  intros u.
  assert (H1 : Py.lower no_unicode "jpg" = "jpg") by reflexivity.
  assert (H2 : Py.lower no_unicode (extension_of "Photo.JpG") = Py.lower no_unicode "jpg") by reflexivity.
  split; [exact H1|]. split; [exact H2|].
  exact (lowercase_extension_matches_any_case no_unicode "k" "s" "s3-bucket" "c.json" "p"
           "gcs-bucket" ["txt"] ["jpg"] "jpg" "Photo.JpG" H1 H2).
Defined.

Lemma run_without_errors_witness :
  (forall h c, sdk_always_ok h c = None)
  /\ upload_files no_unicode nested_dir sdk_always_ok "/top" (start test_uploader)
     = (Return tt,
        mkState test_uploader
          ([] ++ planned_calls no_unicode test_uploader (walk_files nested_dir "/top"))
          ([] ++ planned_log no_unicode test_uploader (walk_files nested_dir "/top"))).
Proof.
  assert (H : forall h c, sdk_always_ok h c = None) by reflexivity.
  split; [exact H|].
  exact (run_without_errors no_unicode nested_dir sdk_always_ok "/top"
           (start test_uploader) H).
Defined.

Lemma unmatchable_extensions_upload_nothing_witness :
  let u := __init__ "k" "s" "s3-bucket" "c.json" "p" "gcs-bucket"
             [".txt"; "TXT"] [".jpg"; "tar.gz"] in
  Forall (fun s => never_matches s = true) [".txt"; "TXT"]
  /\ Forall (fun s => never_matches s = true) [".jpg"; "tar.gz"]
  /\ (forall p, In p (walk_files data_dir "/data") ->
                Py.is_ascii (extension_of (snd p)) = true)
  /\ upload_files no_unicode data_dir sdk_always_ok "/data" (mkState u [] [])
     = (Return tt, mkState u [] []).
Proof.
  intros u.
  assert (H1 : Forall (fun s => never_matches s = true) [".txt"; "TXT"])
    by (repeat constructor).
  assert (H2 : Forall (fun s => never_matches s = true) [".jpg"; "tar.gz"])
    by (repeat constructor).
  assert (H3 : forall p, In p (walk_files data_dir "/data") ->
                         Py.is_ascii (extension_of (snd p)) = true).
  { intros p Hin. simpl in Hin.
    destruct Hin as [<-|[<-|[<-|[]]]]; reflexivity. }
  split; [exact H1|]. split; [exact H2|]. split; [exact H3|].
  exact (unmatchable_extensions_upload_nothing no_unicode "k" "s" "s3-bucket"
           "c.json" "p" "gcs-bucket" [".txt"; "TXT"] [".jpg"; "tar.gz"]
           data_dir sdk_always_ok "/data" [] [] H1 H2 H3).
Defined.

Lemma extension_is_lowercase_without_dot_witness :
  Py.is_ascii (extension_of "photo.v2.JPeG") = true
  /\ Py.lower no_unicode (file_extension_of no_unicode "photo.v2.JPeG")
     = file_extension_of no_unicode "photo.v2.JPeG"
  /\ Py.lower_ascii (file_extension_of no_unicode "photo.v2.JPeG")
     = file_extension_of no_unicode "photo.v2.JPeG"
  /\ Py.occurs os.path.extsep (file_extension_of no_unicode "photo.v2.JPeG") = false
  /\ Py.occurs os.path.sep (file_extension_of no_unicode "photo.v2.JPeG") = false.
Proof.
  assert (H : Py.is_ascii (extension_of "photo.v2.JPeG") = true) by reflexivity.
  split; [exact H|].
  exact (extension_is_lowercase_without_dot no_unicode "photo.v2.JPeG" H).
Defined.

Lemma gcs_only_extension_goes_to_gcs_witness :
  let u := __init__ "k" "s" "s3-bucket" "c.json" "p" "gcs-bucket"
             ["txt"] ["jpg"; "txt"] in
  let st := mkState u [] [] in
  let st' := snd (upload_files_body no_unicode sdk_gcs_down "/data" "B.JPG" st) in
  In (file_extension_of no_unicode "B.JPG") ["jpg"; "txt"]
  /\ ~ In (file_extension_of no_unicode "B.JPG") ["txt"]
  /\ calls st'
     = calls (snd (upload_to_gcs sdk_gcs_down (os.path.join "/data" "B.JPG")
                     "B.JPG" st))
  /\ exists rest,
       calls st' = [] ++ GCS_get_bucket (gcs u) "gcs-bucket" :: rest
       /\ Forall (fun c => is_gcs_call c = true) rest.
Proof.
  intros u st st'.
  assert (H1 : In (file_extension_of no_unicode "B.JPG") ["jpg"; "txt"])
    by (left; reflexivity).
  assert (H2 : ~ In (file_extension_of no_unicode "B.JPG") ["txt"])
    by (simpl; intros [H|[]]; discriminate H).
  split; [exact H1|]. split; [exact H2|].
  exact (gcs_only_extension_goes_to_gcs no_unicode "k" "s" "s3-bucket" "c.json" "p"
           "gcs-bucket" ["txt"] ["jpg"; "txt"] sdk_gcs_down
           "/data" "B.JPG" [] [] H1 H2).
Defined.

Lemma same_name_same_key_witness :
  let st := start test_uploader in
  (forall h c, sdk_always_ok h c = None)
  /\ In ("/top/x", "a.txt") (walk_files twin_dirs "/top")
  /\ In ("/top/y", "a.txt") (walk_files twin_dirs "/top")
  /\ route no_unicode (self st) "a.txt" = Some AWS_S3
  /\ exists cs,
       calls (snd (upload_files no_unicode twin_dirs sdk_always_ok "/top" st)) = calls st ++ cs
       /\ In (S3_upload_file (s3 test_uploader) "s3-bucket"
                (os.path.join "/top/x" "a.txt") "a.txt") cs
       /\ In (S3_upload_file (s3 test_uploader) "s3-bucket"
                (os.path.join "/top/y" "a.txt") "a.txt") cs.
Proof.
  intros st.
  assert (H0 : forall h c, sdk_always_ok h c = None) by reflexivity.
  assert (H1 : In ("/top/x", "a.txt") (walk_files twin_dirs "/top"))
    by (left; reflexivity).
  assert (H2 : In ("/top/y", "a.txt") (walk_files twin_dirs "/top"))
    by (right; left; reflexivity).
  assert (H3 : route no_unicode (self st) "a.txt" = Some AWS_S3) by reflexivity.
  split; [exact H0|]. split; [exact H1|]. split; [exact H2|]. split; [exact H3|].
  exact (same_name_same_key no_unicode twin_dirs sdk_always_ok "/top" st
           "/top/x" "/top/y" "a.txt" H0 H1 H2 H3).
Defined.

Lemma refused_bucket_lookup_stops_gcs_uploads_witness :
  let st := start test_uploader in
  (forall h, sdk_no_gcs_bucket h
               (GCS_get_bucket (gcs (self st)) (gcs_bucket_name (self st)))
             <> None)
  /\ exists cs,
       calls (snd (upload_files no_unicode data_dir sdk_no_gcs_bucket "/data" st))
       = calls st ++ cs
       /\ Forall (fun c => is_gcs_transfer c = false) cs.
Proof.
  intros st.
  assert (H : forall h, sdk_no_gcs_bucket h
                          (GCS_get_bucket (gcs (self st)) (gcs_bucket_name (self st)))
                        <> None) by (intros h; discriminate).
  split; [exact H|].
  exact (refused_bucket_lookup_stops_gcs_uploads no_unicode data_dir sdk_no_gcs_bucket
           "/data" st H).
Defined.

Lemma gcs_error_record_names_s3_bucket_witness :
  let st := start test_uploader in
  let e := Exception "Forbidden" in
  route no_unicode (self st) "b.jpg" = Some Google_Cloud_Storage
  /\ fst (upload_to_gcs sdk_gcs_down (os.path.join "/data" "b.jpg") "b.jpg" st)
     = Raise e
  /\ log (snd (upload_files_body no_unicode sdk_gcs_down "/data" "b.jpg" st))
     = log st ++ [(ERROR, gcs_error_message "b.jpg" (s3_bucket_name (self st)) e)].
Proof.
  intros st e.
  assert (H1 : route no_unicode (self st) "b.jpg" = Some Google_Cloud_Storage) by reflexivity.
  assert (H2 : fst (upload_to_gcs sdk_gcs_down (os.path.join "/data" "b.jpg")
                      "b.jpg" st) = Raise e) by reflexivity.
  split; [exact H1|]. split; [exact H2|].
  exact (gcs_error_record_names_s3_bucket no_unicode sdk_gcs_down "/data" "b.jpg" st e H1 H2).
Defined.

Lemma upload_methods_with_mocks_witness :
  let st := start test_uploader in
  let u := self st in
  (forall h c, sdk_always_ok h c = None)
  /\ upload_to_s3 sdk_always_ok "/tmp/tmpab12" "tmpab12" st
     = (Return tt,
        mkState u
          (calls st ++ [ S3_Bucket (s3 u) (s3_bucket_name u);
                         S3_upload_file (s3 u) (s3_bucket_name u)
                           "/tmp/tmpab12" "tmpab12" ])
          (log st))
  /\ upload_to_gcs sdk_always_ok "/tmp/tmpab12" "tmpab12" st
     = (Return tt,
        mkState u
          (calls st ++ [ GCS_get_bucket (gcs u) (gcs_bucket_name u);
                         GCS_blob (gcs u) (gcs_bucket_name u) "tmpab12";
                         GCS_upload_from_filename (gcs u) (gcs_bucket_name u)
                           "tmpab12" "/tmp/tmpab12" ])
          (log st)).
Proof.
  intros st u.
  assert (H : forall h c, sdk_always_ok h c = None) by reflexivity.
  split; [exact H|].
  exact (upload_methods_with_mocks sdk_always_ok "/tmp/tmpab12" "tmpab12" st H).
Defined.

Lemma every_setting_is_required_witness :
  let parser : config_parser := fun _ _ => Raise (Exception "NoSectionError") in
  sample_source "missing.ini" = Return parser
  /\ In ("gcs", "project_id") required_settings
  /\ parser "gcs" "project_id" = Raise (Exception "NoSectionError")
  /\ exists e',
       cli no_unicode sample_source factory_ok data_dir sdk_always_ok "missing.ini" "/data"
       = (Propagated e', [], []).
Proof.
  intros parser.
  assert (H1 : sample_source "missing.ini" = Return parser) by reflexivity.
  assert (H2 : In ("gcs", "project_id") required_settings)
    by (do 4 right; left; reflexivity).
  assert (H3 : parser "gcs" "project_id" = Raise (Exception "NoSectionError"))
    by reflexivity.
  split; [exact H1|]. split; [exact H2|]. split; [exact H3|].
  exact (every_setting_is_required no_unicode sample_source factory_ok data_dir sdk_always_ok
           "missing.ini" "/data" parser "gcs" "project_id"
           (Exception "NoSectionError") H1 H2 H3).
Defined.

Lemma extension_lists_are_the_split_settings_witness :
  let parser : config_parser :=
    fun section option =>
      match section, option with
      | "s3", "extensions" => Return "txt, csv,"
      | _, _ => sample_parser "" section option
      end in
  let source : config_source := fun _ => Return parser in
  let u := __init__ "access_key" "secret_key" "s3-bucket" "credentials.json"
             "test_project" "gcs-bucket" ["txt"; " csv"; ""] ["jpg"] in
  source "config.ini" = Return parser
  /\ parser "s3" "extensions" = Return "txt, csv,"
  /\ parser "gcs" "extensions" = Return "jpg"
  /\ cli_uploader source factory_ok "config.ini" = Return u
  /\ str_join "," (s3_file_extensions u) = "txt, csv,"
  /\ str_join "," (gcs_file_extensions u) = "jpg"
  /\ length (s3_file_extensions u) = S (count_char "," "txt, csv,")
  /\ length (gcs_file_extensions u) = S (count_char "," "jpg")
  /\ Forall (fun item => Py.occurs "," item = false) (file_extensions u).
Proof.
  intros parser source u.
  assert (H1 : source "config.ini" = Return parser) by reflexivity.
  assert (H2 : parser "s3" "extensions" = Return "txt, csv,") by reflexivity.
  assert (H3 : parser "gcs" "extensions" = Return "jpg") by reflexivity.
  assert (H4 : cli_uploader source factory_ok "config.ini" = Return u)
    by reflexivity.
  split; [exact H1|]. split; [exact H2|]. split; [exact H3|]. split; [exact H4|].
  exact (extension_lists_are_the_split_settings source factory_ok "config.ini"
           parser u "txt, csv," "jpg" H1 H2 H3 H4).
Defined.

Lemma empty_s3_setting_uploads_extensionless_files_witness :
  let parser := sample_parser "" in
  let u := __init__ "access_key" "secret_key" "s3-bucket" "credentials.json"
             "test_project" "gcs-bucket" [""] ["jpg"] in
  let st := mkState u [] [] in
  let st' := snd (upload_files_body no_unicode sdk_always_ok "/data" "Makefile" st) in
  sample_source "empty.ini" = Return parser
  /\ parser "s3" "extensions" = Return ""
  /\ cli_uploader sample_source factory_ok "empty.ini" = Return u
  /\ file_extension_of no_unicode "Makefile" = ""
  /\ s3_file_extensions u = [""]
  /\ calls st'
     = calls (snd (upload_to_s3 sdk_always_ok (os.path.join "/data" "Makefile")
                     "Makefile" st))
  /\ exists record, log st' = [] ++ [record]
                    /\ is_outcome u AWS_S3 "Makefile" record.
Proof.
  intros parser u st st'.
  assert (H1 : sample_source "empty.ini" = Return parser) by reflexivity.
  assert (H2 : parser "s3" "extensions" = Return "") by reflexivity.
  assert (H3 : cli_uploader sample_source factory_ok "empty.ini" = Return u)
    by reflexivity.
  assert (H4 : file_extension_of no_unicode "Makefile" = "") by reflexivity.
  split; [exact H1|]. split; [exact H2|]. split; [exact H3|]. split; [exact H4|].
  exact (empty_s3_setting_uploads_extensionless_files no_unicode sample_source factory_ok
           "empty.ini" parser u sdk_always_ok "/data" "Makefile" [] []
           H1 H2 H3 H4).
Defined.

Lemma local_paths_lie_under_root_witness :
  let n := os.Dir true
             [ ("a.txt", os.File);
               ("sub", os.Dir true [("b.jpg", os.File); ("notes", os.File)]);
               ("link", os.DirLink);
               ("locked", os.Dir false [("c.txt", os.File)]) ] in
  let st := start test_uploader in
  nested_dir "/top" = Some n
  /\ names_relative n = true
  /\ exists cs,
       calls (snd (upload_files no_unicode nested_dir sdk_always_ok "/top" st)) = calls st ++ cs
       /\ Forall (reads_under "/top") cs.
Proof.
  intros n st.
  assert (H1 : nested_dir "/top" = Some n) by reflexivity.
  assert (H2 : names_relative n = true) by reflexivity.
  split; [exact H1|]. split; [exact H2|].
  exact (local_paths_lie_under_root no_unicode nested_dir sdk_always_ok "/top" st n H1 H2).
Defined.

Lemma walk_meets_exactly_the_reachable_files_witness :
  let n := os.Dir true
             [ ("a.txt", os.File);
               ("sub", os.Dir true [("b.jpg", os.File); ("notes", os.File)]);
               ("link", os.DirLink);
               ("locked", os.Dir false [("c.txt", os.File)]) ] in
  nested_dir "/top" = Some n
  /\ (In ("/top/sub", "b.jpg") (walk_files nested_dir "/top")
      <-> reaches "/top" n "/top/sub" "b.jpg").
Proof.
  intros n.
  assert (H : nested_dir "/top" = Some n) by reflexivity.
  split; [exact H|].
  exact (walk_meets_exactly_the_reachable_files nested_dir "/top" "/top/sub"
           "b.jpg" n H).
Defined.

Lemma broken_gcs_credentials_stop_everything_witness :
  let parser := sample_parser "txt" in
  let factory : factory_oracle :=
    fun c => match c with
             | Client_from_service_account_json _ =>
                 Some (Exception "FileNotFoundError")
             | _ => None
             end in
  sample_source "config.ini" = Return parser
  /\ parser "s3" "access_key" = Return "access_key"
  /\ parser "s3" "secret_key" = Return "secret_key"
  /\ parser "s3" "bucket_name" = Return "s3-bucket"
  /\ parser "gcs" "credentials_path" = Return "credentials.json"
  /\ parser "gcs" "project_id" = Return "test_project"
  /\ parser "gcs" "bucket_name" = Return "gcs-bucket"
  /\ parser "s3" "extensions" = Return "txt"
  /\ parser "gcs" "extensions" = Return "jpg"
  /\ factory (boto3_resource_s3 "access_key" "secret_key") = None
  /\ factory (Client_from_service_account_json "credentials.json")
     = Some (Exception "FileNotFoundError")
  /\ cli no_unicode sample_source factory data_dir sdk_always_ok "config.ini" "/data"
     = (Propagated (Exception "FileNotFoundError"), [], []).
Proof.
  intros parser factory.
  repeat (split; [reflexivity|]).
  exact (broken_gcs_credentials_stop_everything no_unicode sample_source factory data_dir
           sdk_always_ok "config.ini" "/data" parser
           "access_key" "secret_key" "s3-bucket" "credentials.json"
           "test_project" "gcs-bucket" "txt" "jpg"
           (Exception "FileNotFoundError")
           eq_refl eq_refl eq_refl eq_refl eq_refl eq_refl eq_refl eq_refl
           eq_refl eq_refl eq_refl).
Defined.
